(** * SolixBLE: session object and telemetry decoder of [SolixBLE.py]

    A shallow embedding of the [SolixBLEDevice] class: the attributes of the
    object as a record, its methods as state-passing functions that either
    return or raise, and the collaborators the class calls into (the bleak
    transport, the registered observers) as an environment the development
    is parametric in.  Scaled readings are binary64 floats, as in the
    source.  The body of [_reconnect] (a sleep under an [asyncio]
    deadline) is outside the model; the spawning of the reconnect task is
    in it.  [discover_devices], the status enumerations and the callback
    of the monitor in [solixble.py] are modelled after the class. *)

From Stdlib Require Import ZArith List Bool Lia.
From Stdlib Require Import Strings.Byte Strings.Ascii Strings.String.
From Stdlib Require Import Floats Uint63.
Import ListNotations.
Local Open Scope Z_scope.

(** ** Module constants *)

Definition RECONNECT_DELAY : Z := 3.
Definition RECONNECT_ATTEMPTS_MAX : Z := 5.
Definition DISCONNECT_TIMEOUT : Z := 30.
Definition EXPECTED_TELEMETRY_SIZE : nat := 253.
Definition DEFAULT_METADATA_STRING : string := "Unknown".
Definition DEFAULT_METADATA_INT : Z := -1.
Definition DEFAULT_METADATA_FLOAT : float := (-1)%float.

(** ** Python values used by the class *)

(** Exceptions that the modelled code can raise or let through.
    [CallbackError] stands for whatever an observer raises. *)
Inductive exn : Type :=
| IndexError
| TypeError
| AttributeError
| ValueError
| UnicodeDecodeError
| BleakError
| CallbackError (tag : nat).

(** A call either returns a value or raises. *)
Inductive outcome (A : Type) : Type :=
| Returned (a : A)
| Raised (e : exn).
Arguments Returned {A} a.
Arguments Raised {A} e.

(** The accessors return an [int] sentinel or a [float] reading. *)
Inductive number : Type :=
| PyInt (z : Z)
| PyFloat (f : float).

(** [float(z)] for [|z| < 2^63]; every integer the decoder converts is
    below [2^32], where the conversion is exact. *)
Definition float_of_int (z : Z) : float :=
  if z <? 0 then PrimFloat.opp (PrimFloat.of_uint63 (Uint63.of_Z (- z)))
  else PrimFloat.of_uint63 (Uint63.of_Z z).

(** [z / f] with [z] an [int] and [f] a [float]: binary64 division. *)
Definition truediv (z : Z) (f : float) : float :=
  PrimFloat.div (float_of_int z) f.

(** Python's binary [-] on numbers. *)
Definition py_sub (a b : number) : number :=
  match a, b with
  | PyInt x, PyInt y => PyInt (x - y)
  | PyInt x, PyFloat y => PyFloat (PrimFloat.sub (float_of_int x) y)
  | PyFloat x, PyInt y => PyFloat (PrimFloat.sub x (float_of_int y))
  | PyFloat x, PyFloat y => PyFloat (PrimFloat.sub x y)
  end.

(** *** Byte strings *)

Definition byte_val (b : byte) : Z := Z.of_N (Byte.to_N b).

(** [data[i:j]] for constant indices [0 <= i <= j]; like Python's slice it
    clamps at the end of the sequence. *)
Definition slice (data : list byte) (i j : nat) : list byte :=
  firstn (j - i) (skipn i data).

(** [data[i]] for a constant index [0 <= i]. *)
Definition index (data : list byte) (i : nat) : outcome Z :=
  match nth_error data i with
  | Some b => Returned (byte_val b)
  | None => Raised IndexError
  end.

(** [int.from_bytes(bs, byteorder="little")]; [signed] keeps its default,
    [False]. *)
Fixpoint int_from_bytes_little (bs : list byte) : Z :=
  match bs with
  | [] => 0
  | b :: rest => byte_val b + 256 * int_from_bytes_little rest
  end.

(** [bs.decode('ascii')]: strict error handling, every byte must be below
    [0x80]. *)
Definition decode_ascii (bs : list byte) : outcome string :=
  if forallb (fun b => byte_val b <? 128) bs
  then Returned (string_of_list_byte bs)
  else Raised UnicodeDecodeError.

(** ** The device object *)

(** Object identities: a [BleakClient], a registered function object, an
    [asyncio.Task].  [datetime] is a clock reading. *)
Definition client : Type := nat.
Definition callback : Type := nat.
Definition task : Type := nat.
Definition datetime : Type := Z.

Record BLEDevice : Type := {
  ble_name : option string;
  ble_address : string
}.

(** The attributes [__init__] creates, with the values the methods store in
    them (the scaled readings are floats, whatever the annotations say). *)
Record SolixBLEDevice : Type := {
  _ble_device : BLEDevice;
  _client : option client;
  _serial_no : option string;
  _charge_percentage_battery : option Z;
  _temperature_battery : option Z;
  _power_battery_discharge : option float;
  _energy_battery_total_in : option float;
  _power_ac_out : option float;
  _power_solar_in : option float;
  _energy_solar_total_in : option float;
  _energy_total_out : option float;
  _status_solar : option Z;
  _status_light : option Z;
  unknown1 : option Z;
  unknown2 : option Z;
  unknown3 : option float;
  _data : option (list byte);
  _last_data_timestamp : option datetime;
  _supports_telemetry : bool;
  _state_changed_callbacks : list callback;
  _reconnect_task : option task;
  _expect_disconnect : bool;
  _connection_attempts : Z;
  timed_out : bool
}.

Definition __init__ (ble_device : BLEDevice) : SolixBLEDevice :=
  {| _ble_device := ble_device;
     _client := None;
     _serial_no := None;
     _charge_percentage_battery := None;
     _temperature_battery := None;
     _power_battery_discharge := None;
     _energy_battery_total_in := None;
     _power_ac_out := None;
     _power_solar_in := None;
     _energy_solar_total_in := None;
     _energy_total_out := None;
     _status_solar := None;
     _status_light := None;
     unknown1 := None;
     unknown2 := None;
     unknown3 := None;
     _data := None;
     _last_data_timestamp := None;
     _supports_telemetry := false;
     _state_changed_callbacks := [];
     _reconnect_task := None;
     _expect_disconnect := true;
     _connection_attempts := 0;
     timed_out := false |}.

(** *** Attribute assignment, one function per attribute that is assigned *)


Definition set_client (v : option client) (d : SolixBLEDevice) : SolixBLEDevice :=
  {| _ble_device := _ble_device d; _client := v; _serial_no := _serial_no d;
     _charge_percentage_battery := _charge_percentage_battery d;
     _temperature_battery := _temperature_battery d;
     _power_battery_discharge := _power_battery_discharge d;
     _energy_battery_total_in := _energy_battery_total_in d;
     _power_ac_out := _power_ac_out d; _power_solar_in := _power_solar_in d;
     _energy_solar_total_in := _energy_solar_total_in d;
     _energy_total_out := _energy_total_out d; _status_solar := _status_solar d;
     _status_light := _status_light d; unknown1 := unknown1 d; unknown2 := unknown2 d;
     unknown3 := unknown3 d; _data := _data d;
     _last_data_timestamp := _last_data_timestamp d;
     _supports_telemetry := _supports_telemetry d;
     _state_changed_callbacks := _state_changed_callbacks d;
     _reconnect_task := _reconnect_task d; _expect_disconnect := _expect_disconnect d;
     _connection_attempts := _connection_attempts d; timed_out := timed_out d |}.

Definition set_serial_no (v : option string) (d : SolixBLEDevice) : SolixBLEDevice :=
  {| _ble_device := _ble_device d; _client := _client d; _serial_no := v;
     _charge_percentage_battery := _charge_percentage_battery d;
     _temperature_battery := _temperature_battery d;
     _power_battery_discharge := _power_battery_discharge d;
     _energy_battery_total_in := _energy_battery_total_in d;
     _power_ac_out := _power_ac_out d; _power_solar_in := _power_solar_in d;
     _energy_solar_total_in := _energy_solar_total_in d;
     _energy_total_out := _energy_total_out d; _status_solar := _status_solar d;
     _status_light := _status_light d; unknown1 := unknown1 d; unknown2 := unknown2 d;
     unknown3 := unknown3 d; _data := _data d;
     _last_data_timestamp := _last_data_timestamp d;
     _supports_telemetry := _supports_telemetry d;
     _state_changed_callbacks := _state_changed_callbacks d;
     _reconnect_task := _reconnect_task d; _expect_disconnect := _expect_disconnect d;
     _connection_attempts := _connection_attempts d; timed_out := timed_out d |}.

Definition set_charge_percentage_battery (v : option Z) (d : SolixBLEDevice) : SolixBLEDevice :=
  {| _ble_device := _ble_device d; _client := _client d; _serial_no := _serial_no d;
     _charge_percentage_battery := v; _temperature_battery := _temperature_battery d;
     _power_battery_discharge := _power_battery_discharge d;
     _energy_battery_total_in := _energy_battery_total_in d;
     _power_ac_out := _power_ac_out d; _power_solar_in := _power_solar_in d;
     _energy_solar_total_in := _energy_solar_total_in d;
     _energy_total_out := _energy_total_out d; _status_solar := _status_solar d;
     _status_light := _status_light d; unknown1 := unknown1 d; unknown2 := unknown2 d;
     unknown3 := unknown3 d; _data := _data d;
     _last_data_timestamp := _last_data_timestamp d;
     _supports_telemetry := _supports_telemetry d;
     _state_changed_callbacks := _state_changed_callbacks d;
     _reconnect_task := _reconnect_task d; _expect_disconnect := _expect_disconnect d;
     _connection_attempts := _connection_attempts d; timed_out := timed_out d |}.

Definition set_temperature_battery (v : option Z) (d : SolixBLEDevice) : SolixBLEDevice :=
  {| _ble_device := _ble_device d; _client := _client d; _serial_no := _serial_no d;
     _charge_percentage_battery := _charge_percentage_battery d; _temperature_battery := v;
     _power_battery_discharge := _power_battery_discharge d;
     _energy_battery_total_in := _energy_battery_total_in d;
     _power_ac_out := _power_ac_out d; _power_solar_in := _power_solar_in d;
     _energy_solar_total_in := _energy_solar_total_in d;
     _energy_total_out := _energy_total_out d; _status_solar := _status_solar d;
     _status_light := _status_light d; unknown1 := unknown1 d; unknown2 := unknown2 d;
     unknown3 := unknown3 d; _data := _data d;
     _last_data_timestamp := _last_data_timestamp d;
     _supports_telemetry := _supports_telemetry d;
     _state_changed_callbacks := _state_changed_callbacks d;
     _reconnect_task := _reconnect_task d; _expect_disconnect := _expect_disconnect d;
     _connection_attempts := _connection_attempts d; timed_out := timed_out d |}.

Definition set_power_battery_discharge (v : option float) (d : SolixBLEDevice) : SolixBLEDevice :=
  {| _ble_device := _ble_device d; _client := _client d; _serial_no := _serial_no d;
     _charge_percentage_battery := _charge_percentage_battery d;
     _temperature_battery := _temperature_battery d; _power_battery_discharge := v;
     _energy_battery_total_in := _energy_battery_total_in d;
     _power_ac_out := _power_ac_out d; _power_solar_in := _power_solar_in d;
     _energy_solar_total_in := _energy_solar_total_in d;
     _energy_total_out := _energy_total_out d; _status_solar := _status_solar d;
     _status_light := _status_light d; unknown1 := unknown1 d; unknown2 := unknown2 d;
     unknown3 := unknown3 d; _data := _data d;
     _last_data_timestamp := _last_data_timestamp d;
     _supports_telemetry := _supports_telemetry d;
     _state_changed_callbacks := _state_changed_callbacks d;
     _reconnect_task := _reconnect_task d; _expect_disconnect := _expect_disconnect d;
     _connection_attempts := _connection_attempts d; timed_out := timed_out d |}.

Definition set_energy_battery_total_in (v : option float) (d : SolixBLEDevice) : SolixBLEDevice :=
  {| _ble_device := _ble_device d; _client := _client d; _serial_no := _serial_no d;
     _charge_percentage_battery := _charge_percentage_battery d;
     _temperature_battery := _temperature_battery d;
     _power_battery_discharge := _power_battery_discharge d; _energy_battery_total_in := v;
     _power_ac_out := _power_ac_out d; _power_solar_in := _power_solar_in d;
     _energy_solar_total_in := _energy_solar_total_in d;
     _energy_total_out := _energy_total_out d; _status_solar := _status_solar d;
     _status_light := _status_light d; unknown1 := unknown1 d; unknown2 := unknown2 d;
     unknown3 := unknown3 d; _data := _data d;
     _last_data_timestamp := _last_data_timestamp d;
     _supports_telemetry := _supports_telemetry d;
     _state_changed_callbacks := _state_changed_callbacks d;
     _reconnect_task := _reconnect_task d; _expect_disconnect := _expect_disconnect d;
     _connection_attempts := _connection_attempts d; timed_out := timed_out d |}.

Definition set_power_ac_out (v : option float) (d : SolixBLEDevice) : SolixBLEDevice :=
  {| _ble_device := _ble_device d; _client := _client d; _serial_no := _serial_no d;
     _charge_percentage_battery := _charge_percentage_battery d;
     _temperature_battery := _temperature_battery d;
     _power_battery_discharge := _power_battery_discharge d;
     _energy_battery_total_in := _energy_battery_total_in d; _power_ac_out := v;
     _power_solar_in := _power_solar_in d;
     _energy_solar_total_in := _energy_solar_total_in d;
     _energy_total_out := _energy_total_out d; _status_solar := _status_solar d;
     _status_light := _status_light d; unknown1 := unknown1 d; unknown2 := unknown2 d;
     unknown3 := unknown3 d; _data := _data d;
     _last_data_timestamp := _last_data_timestamp d;
     _supports_telemetry := _supports_telemetry d;
     _state_changed_callbacks := _state_changed_callbacks d;
     _reconnect_task := _reconnect_task d; _expect_disconnect := _expect_disconnect d;
     _connection_attempts := _connection_attempts d; timed_out := timed_out d |}.

Definition set_power_solar_in (v : option float) (d : SolixBLEDevice) : SolixBLEDevice :=
  {| _ble_device := _ble_device d; _client := _client d; _serial_no := _serial_no d;
     _charge_percentage_battery := _charge_percentage_battery d;
     _temperature_battery := _temperature_battery d;
     _power_battery_discharge := _power_battery_discharge d;
     _energy_battery_total_in := _energy_battery_total_in d;
     _power_ac_out := _power_ac_out d; _power_solar_in := v;
     _energy_solar_total_in := _energy_solar_total_in d;
     _energy_total_out := _energy_total_out d; _status_solar := _status_solar d;
     _status_light := _status_light d; unknown1 := unknown1 d; unknown2 := unknown2 d;
     unknown3 := unknown3 d; _data := _data d;
     _last_data_timestamp := _last_data_timestamp d;
     _supports_telemetry := _supports_telemetry d;
     _state_changed_callbacks := _state_changed_callbacks d;
     _reconnect_task := _reconnect_task d; _expect_disconnect := _expect_disconnect d;
     _connection_attempts := _connection_attempts d; timed_out := timed_out d |}.

Definition set_energy_solar_total_in (v : option float) (d : SolixBLEDevice) : SolixBLEDevice :=
  {| _ble_device := _ble_device d; _client := _client d; _serial_no := _serial_no d;
     _charge_percentage_battery := _charge_percentage_battery d;
     _temperature_battery := _temperature_battery d;
     _power_battery_discharge := _power_battery_discharge d;
     _energy_battery_total_in := _energy_battery_total_in d;
     _power_ac_out := _power_ac_out d; _power_solar_in := _power_solar_in d;
     _energy_solar_total_in := v; _energy_total_out := _energy_total_out d;
     _status_solar := _status_solar d; _status_light := _status_light d;
     unknown1 := unknown1 d; unknown2 := unknown2 d; unknown3 := unknown3 d;
     _data := _data d; _last_data_timestamp := _last_data_timestamp d;
     _supports_telemetry := _supports_telemetry d;
     _state_changed_callbacks := _state_changed_callbacks d;
     _reconnect_task := _reconnect_task d; _expect_disconnect := _expect_disconnect d;
     _connection_attempts := _connection_attempts d; timed_out := timed_out d |}.

Definition set_energy_total_out (v : option float) (d : SolixBLEDevice) : SolixBLEDevice :=
  {| _ble_device := _ble_device d; _client := _client d; _serial_no := _serial_no d;
     _charge_percentage_battery := _charge_percentage_battery d;
     _temperature_battery := _temperature_battery d;
     _power_battery_discharge := _power_battery_discharge d;
     _energy_battery_total_in := _energy_battery_total_in d;
     _power_ac_out := _power_ac_out d; _power_solar_in := _power_solar_in d;
     _energy_solar_total_in := _energy_solar_total_in d; _energy_total_out := v;
     _status_solar := _status_solar d; _status_light := _status_light d;
     unknown1 := unknown1 d; unknown2 := unknown2 d; unknown3 := unknown3 d;
     _data := _data d; _last_data_timestamp := _last_data_timestamp d;
     _supports_telemetry := _supports_telemetry d;
     _state_changed_callbacks := _state_changed_callbacks d;
     _reconnect_task := _reconnect_task d; _expect_disconnect := _expect_disconnect d;
     _connection_attempts := _connection_attempts d; timed_out := timed_out d |}.

Definition set_unknown1 (v : option Z) (d : SolixBLEDevice) : SolixBLEDevice :=
  {| _ble_device := _ble_device d; _client := _client d; _serial_no := _serial_no d;
     _charge_percentage_battery := _charge_percentage_battery d;
     _temperature_battery := _temperature_battery d;
     _power_battery_discharge := _power_battery_discharge d;
     _energy_battery_total_in := _energy_battery_total_in d;
     _power_ac_out := _power_ac_out d; _power_solar_in := _power_solar_in d;
     _energy_solar_total_in := _energy_solar_total_in d;
     _energy_total_out := _energy_total_out d; _status_solar := _status_solar d;
     _status_light := _status_light d; unknown1 := v; unknown2 := unknown2 d;
     unknown3 := unknown3 d; _data := _data d;
     _last_data_timestamp := _last_data_timestamp d;
     _supports_telemetry := _supports_telemetry d;
     _state_changed_callbacks := _state_changed_callbacks d;
     _reconnect_task := _reconnect_task d; _expect_disconnect := _expect_disconnect d;
     _connection_attempts := _connection_attempts d; timed_out := timed_out d |}.

Definition set_unknown3 (v : option float) (d : SolixBLEDevice) : SolixBLEDevice :=
  {| _ble_device := _ble_device d; _client := _client d; _serial_no := _serial_no d;
     _charge_percentage_battery := _charge_percentage_battery d;
     _temperature_battery := _temperature_battery d;
     _power_battery_discharge := _power_battery_discharge d;
     _energy_battery_total_in := _energy_battery_total_in d;
     _power_ac_out := _power_ac_out d; _power_solar_in := _power_solar_in d;
     _energy_solar_total_in := _energy_solar_total_in d;
     _energy_total_out := _energy_total_out d; _status_solar := _status_solar d;
     _status_light := _status_light d; unknown1 := unknown1 d; unknown2 := unknown2 d;
     unknown3 := v; _data := _data d; _last_data_timestamp := _last_data_timestamp d;
     _supports_telemetry := _supports_telemetry d;
     _state_changed_callbacks := _state_changed_callbacks d;
     _reconnect_task := _reconnect_task d; _expect_disconnect := _expect_disconnect d;
     _connection_attempts := _connection_attempts d; timed_out := timed_out d |}.

Definition set_data (v : option (list byte)) (d : SolixBLEDevice) : SolixBLEDevice :=
  {| _ble_device := _ble_device d; _client := _client d; _serial_no := _serial_no d;
     _charge_percentage_battery := _charge_percentage_battery d;
     _temperature_battery := _temperature_battery d;
     _power_battery_discharge := _power_battery_discharge d;
     _energy_battery_total_in := _energy_battery_total_in d;
     _power_ac_out := _power_ac_out d; _power_solar_in := _power_solar_in d;
     _energy_solar_total_in := _energy_solar_total_in d;
     _energy_total_out := _energy_total_out d; _status_solar := _status_solar d;
     _status_light := _status_light d; unknown1 := unknown1 d; unknown2 := unknown2 d;
     unknown3 := unknown3 d; _data := v; _last_data_timestamp := _last_data_timestamp d;
     _supports_telemetry := _supports_telemetry d;
     _state_changed_callbacks := _state_changed_callbacks d;
     _reconnect_task := _reconnect_task d; _expect_disconnect := _expect_disconnect d;
     _connection_attempts := _connection_attempts d; timed_out := timed_out d |}.

Definition set_last_data_timestamp (v : option datetime) (d : SolixBLEDevice) : SolixBLEDevice :=
  {| _ble_device := _ble_device d; _client := _client d; _serial_no := _serial_no d;
     _charge_percentage_battery := _charge_percentage_battery d;
     _temperature_battery := _temperature_battery d;
     _power_battery_discharge := _power_battery_discharge d;
     _energy_battery_total_in := _energy_battery_total_in d;
     _power_ac_out := _power_ac_out d; _power_solar_in := _power_solar_in d;
     _energy_solar_total_in := _energy_solar_total_in d;
     _energy_total_out := _energy_total_out d; _status_solar := _status_solar d;
     _status_light := _status_light d; unknown1 := unknown1 d; unknown2 := unknown2 d;
     unknown3 := unknown3 d; _data := _data d; _last_data_timestamp := v;
     _supports_telemetry := _supports_telemetry d;
     _state_changed_callbacks := _state_changed_callbacks d;
     _reconnect_task := _reconnect_task d; _expect_disconnect := _expect_disconnect d;
     _connection_attempts := _connection_attempts d; timed_out := timed_out d |}.

Definition set_supports_telemetry (v : bool) (d : SolixBLEDevice) : SolixBLEDevice :=
  {| _ble_device := _ble_device d; _client := _client d; _serial_no := _serial_no d;
     _charge_percentage_battery := _charge_percentage_battery d;
     _temperature_battery := _temperature_battery d;
     _power_battery_discharge := _power_battery_discharge d;
     _energy_battery_total_in := _energy_battery_total_in d;
     _power_ac_out := _power_ac_out d; _power_solar_in := _power_solar_in d;
     _energy_solar_total_in := _energy_solar_total_in d;
     _energy_total_out := _energy_total_out d; _status_solar := _status_solar d;
     _status_light := _status_light d; unknown1 := unknown1 d; unknown2 := unknown2 d;
     unknown3 := unknown3 d; _data := _data d;
     _last_data_timestamp := _last_data_timestamp d; _supports_telemetry := v;
     _state_changed_callbacks := _state_changed_callbacks d;
     _reconnect_task := _reconnect_task d; _expect_disconnect := _expect_disconnect d;
     _connection_attempts := _connection_attempts d; timed_out := timed_out d |}.

Definition set_state_changed_callbacks (v : list callback) (d : SolixBLEDevice) : SolixBLEDevice :=
  {| _ble_device := _ble_device d; _client := _client d; _serial_no := _serial_no d;
     _charge_percentage_battery := _charge_percentage_battery d;
     _temperature_battery := _temperature_battery d;
     _power_battery_discharge := _power_battery_discharge d;
     _energy_battery_total_in := _energy_battery_total_in d;
     _power_ac_out := _power_ac_out d; _power_solar_in := _power_solar_in d;
     _energy_solar_total_in := _energy_solar_total_in d;
     _energy_total_out := _energy_total_out d; _status_solar := _status_solar d;
     _status_light := _status_light d; unknown1 := unknown1 d; unknown2 := unknown2 d;
     unknown3 := unknown3 d; _data := _data d;
     _last_data_timestamp := _last_data_timestamp d;
     _supports_telemetry := _supports_telemetry d; _state_changed_callbacks := v;
     _reconnect_task := _reconnect_task d; _expect_disconnect := _expect_disconnect d;
     _connection_attempts := _connection_attempts d; timed_out := timed_out d |}.

Definition set_reconnect_task (v : option task) (d : SolixBLEDevice) : SolixBLEDevice :=
  {| _ble_device := _ble_device d; _client := _client d; _serial_no := _serial_no d;
     _charge_percentage_battery := _charge_percentage_battery d;
     _temperature_battery := _temperature_battery d;
     _power_battery_discharge := _power_battery_discharge d;
     _energy_battery_total_in := _energy_battery_total_in d;
     _power_ac_out := _power_ac_out d; _power_solar_in := _power_solar_in d;
     _energy_solar_total_in := _energy_solar_total_in d;
     _energy_total_out := _energy_total_out d; _status_solar := _status_solar d;
     _status_light := _status_light d; unknown1 := unknown1 d; unknown2 := unknown2 d;
     unknown3 := unknown3 d; _data := _data d;
     _last_data_timestamp := _last_data_timestamp d;
     _supports_telemetry := _supports_telemetry d;
     _state_changed_callbacks := _state_changed_callbacks d; _reconnect_task := v;
     _expect_disconnect := _expect_disconnect d;
     _connection_attempts := _connection_attempts d; timed_out := timed_out d |}.

Definition set_expect_disconnect (v : bool) (d : SolixBLEDevice) : SolixBLEDevice :=
  {| _ble_device := _ble_device d; _client := _client d; _serial_no := _serial_no d;
     _charge_percentage_battery := _charge_percentage_battery d;
     _temperature_battery := _temperature_battery d;
     _power_battery_discharge := _power_battery_discharge d;
     _energy_battery_total_in := _energy_battery_total_in d;
     _power_ac_out := _power_ac_out d; _power_solar_in := _power_solar_in d;
     _energy_solar_total_in := _energy_solar_total_in d;
     _energy_total_out := _energy_total_out d; _status_solar := _status_solar d;
     _status_light := _status_light d; unknown1 := unknown1 d; unknown2 := unknown2 d;
     unknown3 := unknown3 d; _data := _data d;
     _last_data_timestamp := _last_data_timestamp d;
     _supports_telemetry := _supports_telemetry d;
     _state_changed_callbacks := _state_changed_callbacks d;
     _reconnect_task := _reconnect_task d; _expect_disconnect := v;
     _connection_attempts := _connection_attempts d; timed_out := timed_out d |}.

Definition set_connection_attempts (v : Z) (d : SolixBLEDevice) : SolixBLEDevice :=
  {| _ble_device := _ble_device d; _client := _client d; _serial_no := _serial_no d;
     _charge_percentage_battery := _charge_percentage_battery d;
     _temperature_battery := _temperature_battery d;
     _power_battery_discharge := _power_battery_discharge d;
     _energy_battery_total_in := _energy_battery_total_in d;
     _power_ac_out := _power_ac_out d; _power_solar_in := _power_solar_in d;
     _energy_solar_total_in := _energy_solar_total_in d;
     _energy_total_out := _energy_total_out d; _status_solar := _status_solar d;
     _status_light := _status_light d; unknown1 := unknown1 d; unknown2 := unknown2 d;
     unknown3 := unknown3 d; _data := _data d;
     _last_data_timestamp := _last_data_timestamp d;
     _supports_telemetry := _supports_telemetry d;
     _state_changed_callbacks := _state_changed_callbacks d;
     _reconnect_task := _reconnect_task d; _expect_disconnect := _expect_disconnect d;
     _connection_attempts := v; timed_out := timed_out d |}.
(** ** Methods that only touch the object *)

(** A method body: it runs on the object and returns or raises, and the
    assignments made before a [raise] stay made. *)
Definition method (A : Type) : Type :=
  SolixBLEDevice -> outcome A * SolixBLEDevice.

Definition ret {A : Type} (a : A) : method A := fun d => (Returned a, d).

Definition raise {A : Type} (e : exn) : method A := fun d => (Raised e, d).

Definition bind {A B : Type} (m : method A) (k : A -> method B) : method B :=
  fun d =>
    match m d with
    | (Returned a, d') => k a d'
    | (Raised e, d') => (Raised e, d')
    end.

(** An expression that may raise, evaluated inside a method. *)
Definition eval {A : Type} (o : outcome A) : method A := fun d => (o, d).

(** [self.attr = v]. *)
Definition assign (set : SolixBLEDevice -> SolixBLEDevice) : method unit :=
  fun d => (Returned tt, set d).

(** [self.attr] read. *)
Definition read {A : Type} (attr : SolixBLEDevice -> A) : method A :=
  fun d => (Returned (attr d), d).

Declare Scope method_scope.
Delimit Scope method_scope with method.
Notation "x <- m ;; k" := (bind m (fun x => k))
  (at level 61, m at next level, right associativity) : method_scope.
Notation "m ;; k" := (bind m (fun _ => k))
  (at level 61, right associativity) : method_scope.

(** [self._parse_int(index)]: subscripting [self._data] while it is still
    [None] is a [TypeError]. *)
Definition _parse_int (i : nat) : method Z :=
  (data <- read _data ;;
   match data with
   | Some bs => ret (int_from_bytes_little (slice bs i (i + 2)))
   | None => raise TypeError
   end)%method.

(** [self._parse_int32(index)]. *)
Definition _parse_int32 (i : nat) : method Z :=
  (data <- read _data ;;
   match data with
   | Some bs => ret (int_from_bytes_little (slice bs i (i + 4)))
   | None => raise TypeError
   end)%method.

(** [self._parse_telemetry(data)], with [now] the value [datetime.now()]
    returns during the call.  The log lines are left out; the statements
    follow the source in order. *)
Definition _parse_telemetry (now : datetime) (data : list byte) : method unit :=
  (if negb (Nat.eqb (List.length data) EXPECTED_TELEMETRY_SIZE) then ret tt
   else
     b8 <- eval (index data 8) ;;
     if negb (b8 =? 0x05) then ret tt
     else
       b9 <- eval (index data 9) ;;
       if negb (b9 =? 0x13) then ret tt
       else
         assign (set_data (Some data)) ;;
         assign (set_last_data_timestamp (Some now)) ;;
         serial <- eval (decode_ascii (slice data 0x10 0x20)) ;;
         assign (set_serial_no (Some serial)) ;;
         b35 <- eval (index data 35) ;;
         assign (set_charge_percentage_battery (Some b35)) ;;
         b39 <- eval (index data 39) ;;
         assign (set_unknown1 (Some b39)) ;;
         b73 <- eval (index data 73) ;;
         assign (set_temperature_battery (Some b73)) ;;
         solar <- _parse_int 77 ;;
         assign (set_power_solar_in (Some (truediv solar 10))) ;;
         ac <- _parse_int 84 ;;
         assign (set_power_ac_out (Some (truediv ac 10))) ;;
         u3 <- _parse_int32 103 ;;
         assign (set_unknown3 (Some (truediv u3 100000))) ;;
         solar_total <- _parse_int32 110 ;;
         assign (set_energy_solar_total_in (Some (truediv solar_total 10000))) ;;
         battery_total <- _parse_int32 117 ;;
         assign (set_energy_battery_total_in (Some (truediv battery_total 100000))) ;;
         total_out <- _parse_int32 124 ;;
         assign (set_energy_total_out (Some (truediv total_out 10000))) ;;
         discharge <- _parse_int32 132 ;;
         assign (set_power_battery_discharge (Some (truediv discharge 100)))
  )%method.

(** *** Accessors *)

Definition supports_telemetry (d : SolixBLEDevice) : bool := _supports_telemetry d.

Definition last_update (d : SolixBLEDevice) : option datetime := _last_data_timestamp d.

Definition address (d : SolixBLEDevice) : string := ble_address (_ble_device d).

(** [x or DEFAULT_METADATA_STRING]: [None] and the empty string are both
    falsy. *)
Definition or_default_string (x : option string) : string :=
  match x with
  | Some EmptyString | None => DEFAULT_METADATA_STRING
  | Some s => s
  end.

Definition name (d : SolixBLEDevice) : string := or_default_string (ble_name (_ble_device d)).

Definition serial_no (d : SolixBLEDevice) : string := or_default_string (_serial_no d).

(** [x if x is not None else DEFAULT_METADATA_INT] on a float attribute and
    on an int attribute. *)
Definition float_or_default (x : option float) : number :=
  match x with
  | Some f => PyFloat f
  | None => PyInt DEFAULT_METADATA_INT
  end.

Definition int_or_default (x : option Z) : number :=
  match x with
  | Some z => PyInt z
  | None => PyInt DEFAULT_METADATA_INT
  end.

Definition power_ac_out (d : SolixBLEDevice) : number := float_or_default (_power_ac_out d).

Definition power_solar_in (d : SolixBLEDevice) : number := float_or_default (_power_solar_in d).

Definition power_battery (d : SolixBLEDevice) : number :=
  match _power_solar_in d, _power_ac_out d with
  | Some solar, Some ac => py_sub (PyFloat solar) (PyFloat ac)
  | _, _ => PyInt DEFAULT_METADATA_INT
  end.

Definition power_battery_discharge (d : SolixBLEDevice) : number :=
  float_or_default (_power_battery_discharge d).

Definition temperature_battery (d : SolixBLEDevice) : number :=
  int_or_default (_temperature_battery d).

Definition charge_percentage_battery (d : SolixBLEDevice) : number :=
  int_or_default (_charge_percentage_battery d).

Definition energy_total_solar (d : SolixBLEDevice) : number :=
  float_or_default (_energy_solar_total_in d).

Definition energy_total_battery (d : SolixBLEDevice) : number :=
  float_or_default (_energy_battery_total_in d).

Definition energy_total_out (d : SolixBLEDevice) : number :=
  float_or_default (_energy_total_out d).

(** ** The session: the object among its collaborators *)

(** What the object does to the outside, in the order it does it: it calls
    an observer, calls into the transport, or spawns the reconnect task. *)
Inductive event : Type :=
| Called (f : callback)
| EstablishConnection (max_attempts : Z)
| GetCharacteristic (c : client)
| StartNotify (c : client)
| ClientDisconnect (c : client)
| CreateTask (t : task).

(** The object, the state [E] of everything outside it (the transport, the
    observers' closures), and the events so far. *)
Record World (E : Type) : Type := {
  self : SolixBLEDevice;
  ext : E;
  trace : list event
}.
Arguments self {E} w.
Arguments ext {E} w.
Arguments trace {E} w.

(** The code the class calls into.  An observer and an awaited transport
    call may change the object as well as the outside: observers hold a
    reference to it, and other handlers run while a coroutine is suspended.
    Any of them may raise. *)
Record Collaborators (E : Type) : Type := {
  call : callback -> SolixBLEDevice * E -> outcome unit * (SolixBLEDevice * E);
  is_connected : client -> E -> bool;
  establish_connection :
    Z -> SolixBLEDevice * E -> outcome client * (SolixBLEDevice * E);
  get_characteristic : client -> E -> outcome bool;
  start_notify : client -> SolixBLEDevice * E -> outcome unit * (SolixBLEDevice * E)
}.
Arguments call {E} c f s.
Arguments is_connected {E} c cl x.
Arguments establish_connection {E} c max_attempts s.
Arguments get_characteristic {E} c cl x.
Arguments start_notify {E} c cl s.

(** A method or coroutine of the session.  [None] is a run that needs more
    fuel than it was given: only the loop over the observers consumes any. *)
Definition session (E A : Type) : Type :=
  World E -> option (outcome A * World E).

Section Session.

Context {E : Type}.
Variable env : Collaborators E.

Definition sret {A : Type} (a : A) : session E A := fun w => Some (Returned a, w).

Definition sraise {A : Type} (e : exn) : session E A := fun w => Some (Raised e, w).

Definition sbind {A B : Type} (m : session E A) (k : A -> session E B) : session E B :=
  fun w =>
    match m w with
    | Some (Returned a, w') => k a w'
    | Some (Raised e, w') => Some (Raised e, w')
    | None => None
    end.

Definition with_self (d : SolixBLEDevice) (w : World E) : World E :=
  {| self := d; ext := ext w; trace := trace w |}.

(** A method of the object, run inside the session. *)
Definition on_self {A : Type} (m : method A) : session E A :=
  fun w => let (o, d) := m (self w) in Some (o, with_self d w).

(** A property that reads the object and the outside. *)
Definition observe {A : Type} (p : World E -> A) : session E A :=
  fun w => Some (Returned (p w), w).

Definition emit (ev : event) : session E unit :=
  fun w => Some (Returned tt, {| self := self w; ext := ext w; trace := trace w ++ [ev] |}).

(** A call into a collaborator. *)
Definition external {A : Type}
  (f : SolixBLEDevice * E -> outcome A * (SolixBLEDevice * E)) : session E A :=
  fun w =>
    let '(o, (d, x)) := f (self w, ext w) in
    Some (o, {| self := d; ext := x; trace := trace w |}).

(** [try: body / except BleakError: handler]. *)
Definition try_except_BleakError {A : Type} (body handler : session E A) : session E A :=
  fun w =>
    match body w with
    | Some (Raised BleakError, w') => handler w'
    | r => r
    end.

Declare Scope session_scope.
Delimit Scope session_scope with session.
Notation "x <- m ;; k" := (sbind m (fun x => k))
  (at level 61, m at next level, right associativity) : session_scope.
Notation "m ;; k" := (sbind m (fun _ => k))
  (at level 61, right associativity) : session_scope.

(** *** Observer registry *)

Definition add_callback (f : callback) : session E unit :=
  on_self (fun d =>
    (Returned tt, set_state_changed_callbacks (_state_changed_callbacks d ++ [f]) d)).

(** [list.remove]: the first occurrence goes; [None] when there is none. *)
Fixpoint remove_first (f : callback) (l : list callback) : option (list callback) :=
  match l with
  | [] => None
  | g :: l' =>
      if Nat.eqb g f then Some l'
      else match remove_first f l' with
           | Some r => Some (g :: r)
           | None => None
           end
  end.

Definition remove_callback (f : callback) : session E unit :=
  on_self (fun d =>
    match remove_first f (_state_changed_callbacks d) with
    | Some l => (Returned tt, set_state_changed_callbacks l d)
    | None => (Raised ValueError, d)
    end).

(** [for function in self._state_changed_callbacks: function()] from
    position [i] on.  The list iterator holds the list object and a
    position, and looks the position up in the list as it is at each step;
    an observer that raises ends the loop and the method. *)
Fixpoint iterate_callbacks (fuel : nat) (i : nat) : session E unit :=
  match fuel with
  | O => fun _ => None
  | S fuel' => fun w =>
      match nth_error (_state_changed_callbacks (self w)) i with
      | None => Some (Returned tt, w)
      | Some f =>
          (emit (Called f) ;;
           external (call env f) ;;
           iterate_callbacks fuel' (S i))%session w
      end
  end.

Definition _run_state_changed_callbacks (fuel : nat) : session E unit :=
  iterate_callbacks fuel 0.

(** *** Connection state *)

Definition connected (w : World E) : bool :=
  match _client (self w) with
  | Some c => is_connected env c (ext w)
  | None => false
  end.

Definition available (w : World E) : bool :=
  connected w && supports_telemetry (self w).

(** [self._determine_services()]; the loop that logs the services is left
    out. *)
Definition _determine_services : session E unit :=
  (cl <- on_self (read _client) ;;
   match cl with
   | None => sraise AttributeError
   | Some c =>
       emit (GetCharacteristic c) ;;
       present <- external (fun s => (get_characteristic env c (snd s), s)) ;;
       on_self (assign (set_supports_telemetry present))
   end)%session.

(** [self._subscribe_to_services()]. *)
Definition _subscribe_to_services : session E unit :=
  (supported <- on_self (read _supports_telemetry) ;;
   if supported then
     cl <- on_self (read _client) ;;
     match cl with
     | None => sraise AttributeError
     | Some c => emit (StartNotify c) ;; external (start_notify env c)
     end
   else sret tt)%session.

(** The notification handler [_telemetry_update] that
    [_subscribe_to_services] registers. *)
Definition _telemetry_update (fuel : nat) (now : datetime) (data : list byte)
  : session E unit :=
  (on_self (_parse_telemetry now data) ;;
   _run_state_changed_callbacks fuel)%session.

(** [self.connect(max_attempts, run_callbacks)]. *)
Definition connect (fuel : nat) (max_attempts : Z) (run_callbacks : bool)
  : session E bool :=
  (is_up <- observe connected ;;
   (if negb is_up then
      attempts <- on_self (read _connection_attempts) ;;
      on_self (assign (set_connection_attempts (attempts + 1))) ;;
      try_except_BleakError
        (emit (EstablishConnection max_attempts) ;;
         c <- external (establish_connection env max_attempts) ;;
         on_self (assign (set_client (Some c))))
        (sret tt)
    else sret tt) ;;
   is_up <- observe connected ;;
   if negb is_up then sret false
   else
     is_available <- observe available ;;
     early <- (if negb is_available then
                 try_except_BleakError
                   (_determine_services ;; _subscribe_to_services ;; sret None)
                   (sret (Some false))
               else sret None) ;;
     match early with
     | Some result => sret result
     | None =>
         is_available <- observe available ;;
         if negb is_available then sret false
         else
           on_self (assign (set_expect_disconnect false)) ;;
           on_self (assign (set_connection_attempts 0)) ;;
           (if run_callbacks then _run_state_changed_callbacks fuel else sret tt) ;;
           sret true
     end)%session.

(** [self.disconnect()].  The client's [disconnect] is called and not
    awaited: nothing of the transport runs inside this method. *)
Definition disconnect : session E unit :=
  (on_self (assign (set_expect_disconnect true)) ;;
   cl <- on_self (read _client) ;;
   match cl with
   | Some c =>
       emit (ClientDisconnect c) ;;
       on_self (assign (set_client None))
   | None => sret tt
   end)%session.

(** [self._disconnect_callback(client)].  The task it spawns runs
    [_reconnect] later, under a deadline; here it is the [CreateTask] event
    and the handle kept in [_reconnect_task]. *)
Definition _disconnect_callback (c : client) : session E unit :=
  (cl <- on_self (read _client) ;;
   let differs := match cl with
                  | Some held => negb (Nat.eqb c held)
                  | None => true
                  end in
   if differs then sret tt
   else
     on_self (assign (set_supports_telemetry false)) ;;
     expected <- on_self (read _expect_disconnect) ;;
     if expected then sret tt
     else
       attempts <- on_self (read _connection_attempts) ;;
       if (RECONNECT_ATTEMPTS_MAX =? -1) || (attempts <? RECONNECT_ATTEMPTS_MAX)
       then
         t <- observe (fun w => List.length (trace w)) ;;
         emit (CreateTask t) ;;
         on_self (assign (set_reconnect_task (Some t)))
       else sret tt)%session.

End Session.

(** ** The wire frame as the specification words it *)

(** Byte [i] of a payload, as an unsigned number. *)
Definition byte_at (data : list byte) (i : nat) : Z := byte_val (nth i data x00).

(** The 16-bit little-endian integer at bytes [i] and [i+1]. *)
Definition spec_le16 (data : list byte) (i : nat) : Z :=
  byte_at data i + 2 ^ 8 * byte_at data (i + 1).

(** The 32-bit little-endian integer at bytes [i .. i+3]. *)
Definition spec_le32 (data : list byte) (i : nat) : Z :=
  byte_at data i + 2 ^ 8 * byte_at data (i + 1)
  + 2 ^ 16 * byte_at data (i + 2) + 2 ^ 24 * byte_at data (i + 3).

(** A 32-bit pattern read as a two's-complement number. *)
Definition spec_signed32 (u : Z) : Z := if 2 ^ 31 <=? u then u - 2 ^ 32 else u.

(** The marker test and the serial field. *)
Definition has_marker (data : list byte) : Prop :=
  byte_at data 8 = 0x05 /\ byte_at data 9 = 0x13.

Definition serial_is_ascii (data : list byte) : bool :=
  forallb (fun b => byte_val b <? 128) (slice data 0x10 0x20).

(** An observer that leaves the registry as it found it. *)
Definition keeps_registry {E : Type} (env : Collaborators E) : Prop :=
  forall f d x,
    _state_changed_callbacks (fst (snd (call env f (d, x)))) = _state_changed_callbacks d.

(** The amended reading of a notification, on a list that stays as it is:
    the functions are called in the order of the list, each once; the
    first one to raise ends the notification, and its exception is the
    outcome. *)
Fixpoint notify_in_order {E : Type} (env : Collaborators E) (fs : list callback)
  (w : World E) : outcome unit * World E :=
  match fs with
  | [] => (Returned tt, w)
  | f :: rest =>
      match call env f (self w, ext w) with
      | (Returned _, (d, x)) =>
          notify_in_order env rest
            {| self := d; ext := x; trace := trace w ++ [Called f] |}
      | (Raised e, (d, x)) =>
          (Raised e, {| self := d; ext := x; trace := trace w ++ [Called f] |})
      end
  end.

(** ** Sample inputs *)

Definition sample_ble_device : BLEDevice :=
  {| ble_name := Some "Anker SOLIX C300X"%string; ble_address := "AA:BB:CC:DD:EE:FF"%string |}.

(** A telemetry frame: marker, serial "AAAAAAAAAAAAAAAA", 85 percent, 25 C,
    solar 0x0064, AC out 0x012c, the 32-bit fields small. *)
Definition sample_byte (i : nat) : byte :=
  if (16 <=? i)%nat && (i <? 32)%nat then x41
  else match i with
       | 8 => x05 | 9 => x13
       | 35 => x55 | 39 => x01 | 73 => x19
       | 77 => x64 | 78 => x00
       | 84 => x2c | 85 => x01
       | 91 => x55
       | 103 => x10 | 104 => x27
       | 110 => x20 | 111 => x4e
       | 117 => x30 | 118 => x75
       | 124 => x40 | 125 => x9c
       | 132 => xe8 | 133 => x03
       | _ => x00
       end%nat.

Definition sample_frame : list byte := map sample_byte (seq 0 253).

(** The same frame with a byte of the serial field outside ASCII. *)
Definition frame_bad_serial : list byte :=
  map (fun i => if Nat.eqb i 16 then xff else sample_byte i) (seq 0 253).

(** The same frame with the discharge field [ff ff ff ff]. *)
Definition frame_discharge_ff : list byte :=
  map (fun i => if (132 <=? i)%nat && (i <? 136)%nat then xff else sample_byte i)
      (seq 0 253).

(** A payload of the wrong size and one with a foreign marker. *)
Definition short_payload : list byte := [x01; x02; x03].

Definition frame_other_marker : list byte :=
  map (fun i => if Nat.eqb i 9 then x14 else sample_byte i) (seq 0 253).

(** Collaborators over a trivial outside: the link is always up, the
    transport never fails, observer [0] raises and the others return. *)
Definition env_first_raises : Collaborators unit :=
  {| call := fun f s =>
       if Nat.eqb f 0 then (Raised (CallbackError 0), s) else (Returned tt, s);
     is_connected := fun _ _ => true;
     establish_connection := fun _ s => (Returned 1%nat, s);
     get_characteristic := fun _ _ => Returned true;
     start_notify := fun _ s => (Returned tt, s) |}.

(** The same with observers that all return. *)
Definition env_quiet : Collaborators unit :=
  {| call := fun _ s => (Returned tt, s);
     is_connected := fun _ _ => true;
     establish_connection := fun _ s => (Returned 1%nat, s);
     get_characteristic := fun _ _ => Returned true;
     start_notify := fun _ s => (Returned tt, s) |}.

(** The same with an observer [0] that unregisters itself when called
    ([device.remove_callback] on its own handle). *)
Definition env_self_removing : Collaborators unit :=
  {| call := fun f s =>
       if Nat.eqb f 0 then
         match remove_first 0%nat (_state_changed_callbacks (fst s)) with
         | Some l => (Returned tt, (set_state_changed_callbacks l (fst s), snd s))
         | None => (Raised ValueError, s)
         end
       else (Returned tt, s);
     is_connected := fun _ _ => true;
     establish_connection := fun _ s => (Returned 1%nat, s);
     get_characteristic := fun _ _ => Returned true;
     start_notify := fun _ s => (Returned tt, s) |}.

(** A session that is up and subscribed on client [7], with observers
    [0] and [1] registered in that order. *)
Definition device_available : SolixBLEDevice :=
  set_state_changed_callbacks [0%nat; 1%nat]
    (set_expect_disconnect false
       (set_supports_telemetry true
          (set_client (Some 7%nat) (__init__ sample_ble_device)))).

Definition world_available : World unit :=
  {| self := device_available; ext := tt; trace := [] |}.

(** The assignments of a decode that runs to its end, in source order. *)
Definition frame_assignments (now : datetime) (data : list byte) (d : SolixBLEDevice)
  : SolixBLEDevice :=
  set_power_battery_discharge (Some (truediv (spec_le32 data 132) 100))
    (set_energy_total_out (Some (truediv (spec_le32 data 124) 10000))
       (set_energy_battery_total_in (Some (truediv (spec_le32 data 117) 100000))
          (set_energy_solar_total_in (Some (truediv (spec_le32 data 110) 10000))
             (set_unknown3 (Some (truediv (spec_le32 data 103) 100000))
                (set_power_ac_out (Some (truediv (spec_le16 data 84) 10))
                   (set_power_solar_in (Some (truediv (spec_le16 data 77) 10))
                      (set_temperature_battery (Some (byte_at data 73))
                         (set_unknown1 (Some (byte_at data 39))
                            (set_charge_percentage_battery (Some (byte_at data 35))
                               (set_serial_no
                                  (Some (string_of_list_byte (slice data 0x10 0x20)))
                                  (set_last_data_timestamp (Some now)
                                     (set_data (Some data) d)))))))))))).

(** The session of [world_available] once [disconnect] has run. *)
Definition world_disconnected : World unit :=
  {| self := set_client None (set_expect_disconnect true device_available);
     ext := tt;
     trace := [ClientDisconnect 7%nat] |}.

(** ** A life of notifications *)

(** The object after the payloads [inputs] have gone through
    [_parse_telemetry] one after the other, each with the clock reading of
    its call; a call that raises leaves the object as the raise found it. *)
Definition feed (d : SolixBLEDevice) (inputs : list (datetime * list byte))
  : SolixBLEDevice :=
  fold_left (fun d p => snd (_parse_telemetry (fst p) (snd p) d)) inputs d.

(** The attributes the decoder assigns past the serial field: none of them
    assigned yet, or every one of them. *)
Definition decoded_unset (d : SolixBLEDevice) : Prop :=
  _serial_no d = None /\ _charge_percentage_battery d = None /\ unknown1 d = None
  /\ _temperature_battery d = None /\ _power_solar_in d = None
  /\ _power_ac_out d = None /\ unknown3 d = None
  /\ _energy_solar_total_in d = None /\ _energy_battery_total_in d = None
  /\ _energy_total_out d = None /\ _power_battery_discharge d = None.

Definition decoded_set (d : SolixBLEDevice) : Prop :=
  _serial_no d <> None /\ _charge_percentage_battery d <> None /\ unknown1 d <> None
  /\ _temperature_battery d <> None /\ _power_solar_in d <> None
  /\ _power_ac_out d <> None /\ unknown3 d <> None
  /\ _energy_solar_total_in d <> None /\ _energy_battery_total_in d <> None
  /\ _energy_total_out d <> None /\ _power_battery_discharge d <> None.

(** What holds of the telemetry attributes at every point of an object's
    life. *)
Definition decode_invariant (d : SolixBLEDevice) : Prop :=
  (decoded_unset d \/ decoded_set d)
  /\ unknown2 d = None
  /\ (_data d = None <-> _last_data_timestamp d = None)
  /\ (decoded_set d -> _data d <> None)
  /\ (forall bs, _data d = Some bs -> List.length bs = 253%nat /\ has_marker bs).

(** The attributes of the session, which the decoder has no business
    with. *)
Definition same_session (d d' : SolixBLEDevice) : Prop :=
  _ble_device d' = _ble_device d /\ _client d' = _client d
  /\ _supports_telemetry d' = _supports_telemetry d
  /\ _state_changed_callbacks d' = _state_changed_callbacks d
  /\ _reconnect_task d' = _reconnect_task d
  /\ _expect_disconnect d' = _expect_disconnect d
  /\ _connection_attempts d' = _connection_attempts d
  /\ timed_out d' = timed_out d
  /\ _status_solar d' = _status_solar d /\ _status_light d' = _status_light d.

(** A session on a fresh object. *)
Definition world_fresh : World unit :=
  {| self := __init__ sample_ble_device; ext := tt; trace := [] |}.

(** Collaborators whose link never comes up: establishing raises
    [BleakError]. *)
Definition env_unreachable : Collaborators unit :=
  {| call := fun _ s => (Returned tt, s);
     is_connected := fun _ _ => false;
     establish_connection := fun _ s => (Raised BleakError, s);
     get_characteristic := fun _ _ => Returned true;
     start_notify := fun _ s => (Returned tt, s) |}.

(** Collaborators whose device has no telemetry characteristic. *)
Definition env_no_telemetry : Collaborators unit :=
  {| call := fun _ s => (Returned tt, s);
     is_connected := fun _ _ => true;
     establish_connection := fun _ s => (Returned 1%nat, s);
     get_characteristic := fun _ _ => Returned false;
     start_notify := fun _ s => (Returned tt, s) |}.

(** Collaborators whose subscription fails. *)
Definition env_subscription_fails : Collaborators unit :=
  {| call := fun _ s => (Returned tt, s);
     is_connected := fun _ _ => true;
     establish_connection := fun _ s => (Returned 1%nat, s);
     get_characteristic := fun _ _ => Returned true;
     start_notify := fun _ s => (Raised BleakError, s) |}.

(** A session with the link up on client [7] and nothing probed yet. *)
Definition world_linked : World unit :=
  {| self := set_client (Some 7%nat) (__init__ sample_ble_device); ext := tt; trace := [] |}.

(** ** Discovery *)

Definition UUID_TELEMETRY : string := "8c850003-0302-41c5-b46e-cf057c562025".
Definition UUID_IDENTIFIER : string := "0000ff09-0000-1000-8000-00805f9b34fb".

(** What the scanner hands to its detection callback: a device object, by
    identity (the class has no equality of its own), and the advertising
    data, of which the service UUIDs are read. *)
Definition scanned_device : Type := nat.

Record AdvertisementData : Type := {
  service_uuids : list string
}.

(** [callback(device, advertising_data)] inside [discover_devices], on the
    list [devices] it closes over. *)
Definition detection_callback (device : scanned_device)
  (advertising_data : AdvertisementData) (devices : list scanned_device)
  : list scanned_device :=
  if existsb (String.eqb UUID_IDENTIFIER) (service_uuids advertising_data)
     && negb (existsb (Nat.eqb device) devices)
  then devices ++ [device]
  else devices.

(** [discover_devices(scanner, timeout)]: the list returned after the
    detections the scanner reports while the coroutine sleeps, in the order
    it reports them.  The [scanner] argument is not used by the source. *)
Definition discover_devices (detections : list (scanned_device * AdvertisementData))
  : list scanned_device :=
  fold_left (fun devices p => detection_callback (fst p) (snd p) devices) detections [].

(** ** The status enumerations *)

Module PortStatus.

Inductive t : Type := UNKNOWN | NOT_CONNECTED | OUTPUT | INPUT.

Definition value (s : t) : Z :=
  match s with
  | UNKNOWN => -1
  | NOT_CONNECTED => 0
  | OUTPUT => 1
  | INPUT => 2
  end.

Definition __repr__ (s : t) : string :=
  let status :=
    match s with
    | NOT_CONNECTED => "NOT_CONNECTED"
    | OUTPUT => "OUTPUT"
    | INPUT => "INPUT"
    | _ => "UNKNOWN"
    end%string in
  ("PortStatus(" ++ status ++ ")")%string.

(** The [name] attribute of a member: the identifier it is bound to in the
    class body. *)
Definition name (s : t) : string :=
  match s with
  | UNKNOWN => "UNKNOWN"
  | NOT_CONNECTED => "NOT_CONNECTED"
  | OUTPUT => "OUTPUT"
  | INPUT => "INPUT"
  end%string.

(** [list(PortStatus)]: the members in the order of their definition. *)
Definition members : list t := [UNKNOWN; NOT_CONNECTED; OUTPUT; INPUT].

End PortStatus.

Module LightStatus.

Inductive t : Type := UNKNOWN | OFF | LOW | MEDIUM | HIGH.

Definition value (s : t) : Z :=
  match s with
  | UNKNOWN => -1
  | OFF => 0
  | LOW => 1
  | MEDIUM => 2
  | HIGH => 3
  end.

Definition __repr__ (s : t) : string :=
  let status :=
    match s with
    | OFF => "OFF"
    | LOW => "LOW"
    | MEDIUM => "MEDIUM"
    | HIGH => "HIGH"
    | _ => "UNKNOWN"
    end%string in
  ("LightStatus(" ++ status ++ ")")%string.

(** The [name] attribute of a member: the identifier it is bound to in the
    class body. *)
Definition name (s : t) : string :=
  match s with
  | UNKNOWN => "UNKNOWN"
  | OFF => "OFF"
  | LOW => "LOW"
  | MEDIUM => "MEDIUM"
  | HIGH => "HIGH"
  end%string.

(** [list(LightStatus)]: the members in the order of their definition. *)
Definition members : list t := [UNKNOWN; OFF; LOW; MEDIUM; HIGH].

End LightStatus.

(** ** The monitor of [solixble.py] *)

(** The dictionary [update] prints. *)
Record dataframe : Type := {
  df_time : string;
  df_serial_no : string;
  df_solar_power_in : number;
  df_battery_percent : number;
  df_battery_power : number;
  df_battery_temp : number;
  df_ac_power_out : number;
  df_energy_solar_total : number;
  df_energy_total_battery : number;
  df_energy_total_out : number;
  df_unknown1 : option Z;
  df_unknown3 : option float
}.

(** What [main] holds outside the device: the [last_update] variable the
    callback closes over, and the lines printed so far. *)
Record monitor : Type := {
  seen : option datetime;
  printed : list dataframe
}.

Section Monitor.

(** [datetime.strftime("%Y-%m-%dT%H:%M:%S")]. *)
Variable strftime : datetime -> string.

(** The callback [update] of [main]: silent when the device has no
    timestamp or the one already printed; a [datetime] is never falsy. *)
Definition update (s : SolixBLEDevice * monitor)
  : outcome unit * (SolixBLEDevice * monitor) :=
  let device := fst s in
  let m := snd s in
  match last_update device with
  | None => (Returned tt, s)
  | Some ts =>
      let same := match seen m with
                  | Some last => ts =? last
                  | None => false
                  end in
      if same then (Returned tt, s)
      else
        let frame :=
          {| df_time := strftime ts;
             df_serial_no := serial_no device;
             df_solar_power_in := power_solar_in device;
             df_battery_percent := charge_percentage_battery device;
             df_battery_power := power_battery device;
             df_battery_temp := temperature_battery device;
             df_ac_power_out := power_ac_out device;
             df_energy_solar_total := energy_total_solar device;
             df_energy_total_battery := energy_total_battery device;
             df_energy_total_out := energy_total_out device;
             df_unknown1 := unknown1 device;
             df_unknown3 := unknown3 device |} in
        (Returned tt,
         (device, {| seen := Some ts; printed := printed m ++ [frame] |}))
  end.

(** The collaborators of the monitor: every registered function is
    [update]; the transport is whatever [transport] is. *)
Definition monitor_env (transport : Collaborators monitor) : Collaborators monitor :=
  {| call := fun _ s => update s;
     is_connected := is_connected transport;
     establish_connection := establish_connection transport;
     get_characteristic := get_characteristic transport;
     start_notify := start_notify transport |}.

End Monitor.

(** A monitor that has printed nothing, its callback registered as
    observer [0] on a fresh object, over a transport that never fails; the
    time is rendered by a stand-in for [strftime]. *)
Definition strftime_seconds (ts : datetime) : string :=
  if ts =? 1000 then "2026-01-01T00:16:40" else "2026-01-01T00:00:00".

Definition transport_quiet : Collaborators monitor :=
  {| call := fun _ s => (Returned tt, s);
     is_connected := fun _ _ => true;
     establish_connection := fun _ s => (Returned 1%nat, s);
     get_characteristic := fun _ _ => Returned true;
     start_notify := fun _ s => (Returned tt, s) |}.

Definition world_monitor : World monitor :=
  {| self := set_state_changed_callbacks [0%nat] (__init__ sample_ble_device);
     ext := {| seen := None; printed := [] |};
     trace := [] |}.

(** * Properties *)

(** ** Bytes and slices *)

Lemma byte_val_range (b : byte) : 0 <= byte_val b < 256.
Proof.
  unfold byte_val. pose proof (Byte.to_N_bounded b) as H.
  split; [apply N2Z.is_nonneg | lia].
Qed.

Lemma index_in_range (data : list byte) (i : nat) :
  (i < List.length data)%nat -> index data i = Returned (byte_at data i).
Proof.
  intros H. unfold index, byte_at.
  rewrite (nth_error_nth' data x00 H). reflexivity.
Qed.

Lemma skipn_cons_nth (data : list byte) (i : nat) :
  (i < List.length data)%nat -> skipn i data = nth i data x00 :: skipn (S i) data.
Proof.
  revert data. induction i as [|i IH]; intros [|b data] H; simpl in H; try lia.
  - reflexivity.
  - simpl. apply IH. lia.
Qed.

Lemma slice_two (data : list byte) (i : nat) :
  (i + 2 <= List.length data)%nat ->
  slice data i (i + 2) = [nth i data x00; nth (i + 1) data x00].
Proof.
  intros H. unfold slice.
  replace (i + 2 - i)%nat with 2%nat by lia.
  rewrite (skipn_cons_nth data i) by lia.
  rewrite (skipn_cons_nth data (S i)) by lia.
  replace (i + 1)%nat with (S i) by lia. reflexivity.
Qed.

Lemma slice_four (data : list byte) (i : nat) :
  (i + 4 <= List.length data)%nat ->
  slice data i (i + 4) =
  [nth i data x00; nth (i + 1) data x00; nth (i + 2) data x00; nth (i + 3) data x00].
Proof.
  intros H. unfold slice.
  replace (i + 4 - i)%nat with 4%nat by lia.
  rewrite (skipn_cons_nth data i) by lia.
  rewrite (skipn_cons_nth data (S i)) by lia.
  rewrite (skipn_cons_nth data (S (S i))) by lia.
  rewrite (skipn_cons_nth data (S (S (S i)))) by lia.
  replace (i + 1)%nat with (S i) by lia.
  replace (i + 2)%nat with (S (S i)) by lia.
  replace (i + 3)%nat with (S (S (S i))) by lia.
  reflexivity.
Qed.

(** [int.from_bytes] on a two-byte and on a four-byte slice reads the
    little-endian integer the specification describes. *)
Lemma from_bytes_le16 (data : list byte) (i : nat) :
  (i + 2 <= List.length data)%nat ->
  int_from_bytes_little (slice data i (i + 2)) = spec_le16 data i.
Proof.
  intros H. rewrite slice_two by exact H.
  unfold spec_le16, byte_at. cbn [int_from_bytes_little]. lia.
Qed.

Lemma from_bytes_le32 (data : list byte) (i : nat) :
  (i + 4 <= List.length data)%nat ->
  int_from_bytes_little (slice data i (i + 4)) = spec_le32 data i.
Proof.
  intros H. rewrite slice_four by exact H.
  unfold spec_le32, byte_at. cbn [int_from_bytes_little]. lia.
Qed.

Lemma spec_le16_range (data : list byte) (i : nat) : 0 <= spec_le16 data i < 2 ^ 16.
Proof.
  unfold spec_le16, byte_at.
  pose proof (byte_val_range (nth i data x00)).
  pose proof (byte_val_range (nth (i + 1) data x00)). lia.
Qed.

Lemma spec_le32_range (data : list byte) (i : nat) : 0 <= spec_le32 data i < 2 ^ 32.
Proof.
  unfold spec_le32, byte_at.
  pose proof (byte_val_range (nth i data x00)).
  pose proof (byte_val_range (nth (i + 1) data x00)).
  pose proof (byte_val_range (nth (i + 2) data x00)).
  pose proof (byte_val_range (nth (i + 3) data x00)). lia.
Qed.

(** ** The decoder *)

Lemma parse_telemetry_wrong_size now data d :
  List.length data <> 253%nat -> _parse_telemetry now data d = (Returned tt, d).
Proof.
  intros H. unfold _parse_telemetry, EXPECTED_TELEMETRY_SIZE.
  destruct (Nat.eqb_spec (List.length data) 253) as [Heq | _]; [contradiction|].
  reflexivity.
Qed.

Lemma parse_telemetry_wrong_marker now data d :
  List.length data = 253%nat -> ~ has_marker data ->
  _parse_telemetry now data d = (Returned tt, d).
Proof.
  intros Hlen Hm. unfold _parse_telemetry, EXPECTED_TELEMETRY_SIZE.
  rewrite Hlen, Nat.eqb_refl. cbn [negb]. unfold bind at 1, eval at 1.
  rewrite index_in_range by (rewrite Hlen; repeat constructor).
  destruct (Z.eqb_spec (byte_at data 8) 0x05) as [H8 | H8]; [|reflexivity].
  cbn [negb]. unfold bind at 1, eval at 1.
  rewrite index_in_range by (rewrite Hlen; repeat constructor).
  destruct (Z.eqb_spec (byte_at data 9) 0x13) as [H9 | H9]; [|reflexivity].
  exfalso. apply Hm. split; assumption.
Qed.

(** Past the two checks the decoder has stored the payload and the time
    and is at the serial field. *)
Lemma parse_telemetry_bad_serial now data d :
  List.length data = 253%nat -> has_marker data -> serial_is_ascii data = false ->
  _parse_telemetry now data d =
  (Raised UnicodeDecodeError, set_last_data_timestamp (Some now) (set_data (Some data) d)).
Proof.
  intros Hlen [H8 H9] Hs. unfold _parse_telemetry, EXPECTED_TELEMETRY_SIZE.
  rewrite Hlen, Nat.eqb_refl. cbn [negb]. unfold bind at 1, eval at 1.
  rewrite index_in_range by (rewrite Hlen; repeat constructor). rewrite H8. cbn [Z.eqb Pos.eqb negb].
  unfold bind at 1, eval at 1.
  rewrite index_in_range by (rewrite Hlen; repeat constructor). rewrite H9. cbn [Z.eqb Pos.eqb negb].
  unfold bind, assign, eval, decode_ascii.
  unfold serial_is_ascii in Hs. rewrite Hs. reflexivity.
Qed.

(** One statement of a method body at a time. *)
Lemma bind_assign {B : Type} (f : SolixBLEDevice -> SolixBLEDevice)
  (k : unit -> method B) (d : SolixBLEDevice) :
  bind (assign f) k d = k tt (f d).
Proof. reflexivity. Qed.

Lemma bind_eval_returned {A B : Type} (a : A) (k : A -> method B) (d : SolixBLEDevice) :
  bind (eval (Returned a)) k d = k a d.
Proof. reflexivity. Qed.

Lemma bind_parse_int {B : Type} (i : nat) (k : Z -> method B) (d : SolixBLEDevice)
  (bs : list byte) :
  _data d = Some bs ->
  bind (_parse_int i) k d = k (int_from_bytes_little (slice bs i (i + 2))) d.
Proof. intros H. unfold _parse_int, bind, read. rewrite H. reflexivity. Qed.

Lemma bind_parse_int32 {B : Type} (i : nat) (k : Z -> method B) (d : SolixBLEDevice)
  (bs : list byte) :
  _data d = Some bs ->
  bind (_parse_int32 i) k d = k (int_from_bytes_little (slice bs i (i + 4))) d.
Proof. intros H. unfold _parse_int32, bind, read. rewrite H. reflexivity. Qed.

Ltac step_method :=
  first
    [ rewrite bind_assign
    | rewrite bind_eval_returned
    | erewrite bind_parse_int by reflexivity
    | erewrite bind_parse_int32 by reflexivity ].

Lemma parse_telemetry_frame now data d :
  List.length data = 253%nat -> has_marker data -> serial_is_ascii data = true ->
  _parse_telemetry now data d = (Returned tt, frame_assignments now data d).
Proof.
  intros Hlen [H8 H9] Hs. unfold _parse_telemetry, EXPECTED_TELEMETRY_SIZE.
  rewrite Hlen, Nat.eqb_refl. cbn [negb].
  rewrite !index_in_range by (rewrite Hlen; repeat constructor).
  rewrite bind_eval_returned, H8. cbn [Z.eqb Pos.eqb negb].
  rewrite bind_eval_returned, H9. cbn [Z.eqb Pos.eqb negb].
  unfold decode_ascii. unfold serial_is_ascii in Hs. rewrite Hs.
  repeat step_method.
  rewrite !from_bytes_le16 by (rewrite Hlen; repeat constructor).
  rewrite !from_bytes_le32 by (rewrite Hlen; repeat constructor).
  reflexivity.
Qed.

Lemma sample_frame_valid :
  List.length sample_frame = 253%nat /\ has_marker sample_frame /\
  serial_is_ascii sample_frame = true.
Proof. repeat split; vm_compute; reflexivity. Qed.

(** C3: a payload whose length is not 253, or a 253-byte payload whose
    bytes 8 and 9 are not 0x05 and 0x13, makes [_parse_telemetry] return
    normally with the object exactly as it was: nothing stored, no
    timestamp, no field touched, nothing raised. *)
Theorem parse_telemetry_ignores_foreign_payload
  (now : datetime) (data : list byte) (d : SolixBLEDevice) :
  List.length data <> 253%nat \/ (List.length data = 253%nat /\ ~ has_marker data) ->
  _parse_telemetry now data d = (Returned tt, d).
Proof.
  intros [Hsize | [Hsize Hmarker]].
  - now apply parse_telemetry_wrong_size.
  - now apply parse_telemetry_wrong_marker.
Qed.

Lemma parse_telemetry_ignores_foreign_payload_witness :
  _parse_telemetry 1000 short_payload (__init__ sample_ble_device)
  = (Returned tt, __init__ sample_ble_device)
  /\ _parse_telemetry 1000 frame_other_marker (__init__ sample_ble_device)
     = (Returned tt, __init__ sample_ble_device).
Proof.
  split; apply parse_telemetry_ignores_foreign_payload.
  - left. vm_compute. discriminate.
  - right. split; [reflexivity|]. vm_compute. intros [_ H]. discriminate H.
Defined.

(** C4: on a 253-byte frame with the marker and an ASCII serial field the
    decoder returns, and every field it stores is the byte or the
    little-endian integer at the documented offset, divided by the
    documented scale; with bytes 77 and 78 equal to 0x64 and 0x00 the solar
    input power reads 10.0. *)
Theorem parse_telemetry_decodes_fields
  (now : datetime) (data : list byte) (d : SolixBLEDevice) :
  List.length data = 253%nat -> has_marker data -> serial_is_ascii data = true ->
  exists d',
    _parse_telemetry now data d = (Returned tt, d')
    /\ _data d' = Some data
    /\ _last_data_timestamp d' = Some now
    /\ _serial_no d' = Some (string_of_list_byte (slice data 16 32))
    /\ _charge_percentage_battery d' = Some (byte_at data 35)
    /\ _temperature_battery d' = Some (byte_at data 73)
    /\ _power_solar_in d' = Some (truediv (spec_le16 data 77) 10)
    /\ _power_ac_out d' = Some (truediv (spec_le16 data 84) 10)
    /\ unknown3 d' = Some (truediv (spec_le32 data 103) 100000)
    /\ _energy_solar_total_in d' = Some (truediv (spec_le32 data 110) 10000)
    /\ _energy_battery_total_in d' = Some (truediv (spec_le32 data 117) 100000)
    /\ _energy_total_out d' = Some (truediv (spec_le32 data 124) 10000)
    /\ _power_battery_discharge d' = Some (truediv (spec_le32 data 132) 100)
    /\ (byte_at data 77 = 0x64 -> byte_at data 78 = 0x00 ->
        power_solar_in d' = PyFloat 10).
Proof.
  intros Hlen Hm Hs. exists (frame_assignments now data d).
  split; [now apply parse_telemetry_frame|].
  repeat (split; [reflexivity|]).
  intros H77 H78. unfold power_solar_in, frame_assignments. cbn [_power_solar_in
    set_power_battery_discharge set_energy_total_out set_energy_battery_total_in
    set_energy_solar_total_in set_unknown3 set_power_ac_out set_power_solar_in].
  unfold float_or_default, spec_le16. change (77 + 1)%nat with 78%nat.
  rewrite H77, H78. reflexivity.
Qed.

Lemma parse_telemetry_decodes_fields_witness :
  exists d',
    _parse_telemetry 1000 sample_frame (__init__ sample_ble_device) = (Returned tt, d')
    /\ power_solar_in d' = PyFloat 10
    /\ power_ac_out d' = PyFloat 30
    /\ charge_percentage_battery d' = PyInt 85.
Proof.
  destruct (parse_telemetry_decodes_fields 1000 sample_frame (__init__ sample_ble_device))
    as [d' [Hrun [_ [_ [_ [Hpct [_ [_ [Hac [_ [_ [_ [_ [_ Hsolar]]]]]]]]]]]]]].
  - reflexivity.
  - split; reflexivity.
  - reflexivity.
  - exists d'. split; [exact Hrun|]. split; [apply Hsolar; reflexivity|].
    split.
    + unfold power_ac_out. rewrite Hac. reflexivity.
    + unfold charge_percentage_battery. rewrite Hpct. reflexivity.
Defined.

Lemma frame_bad_serial_shape :
  List.length frame_bad_serial = 253%nat /\ has_marker frame_bad_serial /\
  serial_is_ascii frame_bad_serial = false.
Proof. repeat split; vm_compute; reflexivity. Qed.

(** On a 253-byte payload with the marker the decoder either runs to its
    end or stops at the serial field. *)
Lemma parse_telemetry_fails_only_on_serial now data d :
  List.length data = 253%nat -> has_marker data ->
  fst (_parse_telemetry now data d) <> Returned tt ->
  serial_is_ascii data = false.
Proof.
  intros Hlen Hm Hfail.
  destruct (serial_is_ascii data) eqn:Hs; [|reflexivity].
  exfalso. apply Hfail. rewrite parse_telemetry_frame by assumption. reflexivity.
Qed.

(** C1, as the specification has it, fails: on a frame whose serial field
    holds 0xff the decoder raises, and the object is no longer what it was:
    the payload and the time of the call are already stored. *)
Lemma parse_telemetry_bad_serial_partial_update :
  List.length frame_bad_serial = 253%nat
  /\ has_marker frame_bad_serial
  /\ fst (_parse_telemetry 1000 frame_bad_serial (__init__ sample_ble_device))
     = Raised UnicodeDecodeError
  /\ _data (__init__ sample_ble_device) = None
  /\ _data (snd (_parse_telemetry 1000 frame_bad_serial (__init__ sample_ble_device)))
     = Some frame_bad_serial
  /\ _last_data_timestamp (__init__ sample_ble_device) = None
  /\ _last_data_timestamp
       (snd (_parse_telemetry 1000 frame_bad_serial (__init__ sample_ble_device)))
     = Some 1000
  /\ snd (_parse_telemetry 1000 frame_bad_serial (__init__ sample_ble_device))
     <> __init__ sample_ble_device.
Proof.
  destruct frame_bad_serial_shape as [Hlen [Hm Hs]].
  rewrite (parse_telemetry_bad_serial 1000 _ (__init__ sample_ble_device) Hlen Hm Hs).
  repeat (split; [assumption || reflexivity|]).
  intros H. apply (f_equal _last_data_timestamp) in H. discriminate H.
Qed.

(** C1, amended: when the decode of a 253-byte payload with the marker
    does not return normally, the serial field is not ASCII, the error
    raised is [UnicodeDecodeError], the stored payload and the last-update
    time are the new ones, and the serial and every other decoded field are
    what they were before the call. *)
Theorem parse_telemetry_malformed_frame
  (now : datetime) (data : list byte) (d : SolixBLEDevice) :
  List.length data = 253%nat -> has_marker data ->
  fst (_parse_telemetry now data d) <> Returned tt ->
  exists d',
    _parse_telemetry now data d = (Raised UnicodeDecodeError, d')
    /\ serial_is_ascii data = false
    /\ d' = set_last_data_timestamp (Some now) (set_data (Some data) d)
    /\ _data d' = Some data
    /\ _last_data_timestamp d' = Some now
    /\ _serial_no d' = _serial_no d
    /\ _charge_percentage_battery d' = _charge_percentage_battery d
    /\ _temperature_battery d' = _temperature_battery d
    /\ _power_solar_in d' = _power_solar_in d
    /\ _power_ac_out d' = _power_ac_out d
    /\ _energy_solar_total_in d' = _energy_solar_total_in d
    /\ _energy_battery_total_in d' = _energy_battery_total_in d
    /\ _energy_total_out d' = _energy_total_out d
    /\ _power_battery_discharge d' = _power_battery_discharge d
    /\ unknown1 d' = unknown1 d /\ unknown2 d' = unknown2 d /\ unknown3 d' = unknown3 d.
Proof.
  intros Hlen Hm Hfail.
  pose proof (parse_telemetry_fails_only_on_serial now data d Hlen Hm Hfail) as Hs.
  exists (set_last_data_timestamp (Some now) (set_data (Some data) d)).
  split; [now apply parse_telemetry_bad_serial|].
  split; [exact Hs|].
  repeat split.
Qed.

Lemma parse_telemetry_malformed_frame_witness :
  exists d',
    _parse_telemetry 1000 frame_bad_serial (__init__ sample_ble_device)
    = (Raised UnicodeDecodeError, d')
    /\ _data d' = Some frame_bad_serial
    /\ _serial_no d' = None.
Proof.
  destruct (parse_telemetry_malformed_frame 1000 frame_bad_serial
              (__init__ sample_ble_device))
    as [d' [Hrun [_ [_ [Hdata [_ [Hserial _]]]]]]].
  - reflexivity.
  - split; reflexivity.
  - vm_compute. discriminate.
  - exists d'. repeat split; assumption.
Defined.

Lemma frame_discharge_ff_valid :
  List.length frame_discharge_ff = 253%nat /\ has_marker frame_discharge_ff /\
  serial_is_ascii frame_discharge_ff = true.
Proof. repeat split; vm_compute; reflexivity. Qed.

(** C8, as the specification has it, fails: with the discharge field
    [ff ff ff ff] a signed reading is -1, that is -0.01 W; the decoder
    stores 4294967295 / 100.0, a positive number. *)
Lemma discharge_sign_bit_reads_positive :
  List.length frame_discharge_ff = 253%nat
  /\ has_marker frame_discharge_ff
  /\ serial_is_ascii frame_discharge_ff = true
  /\ spec_le32 frame_discharge_ff 132 = 0xFFFFFFFF
  /\ spec_signed32 (spec_le32 frame_discharge_ff 132) = -1
  /\ _power_battery_discharge
       (snd (_parse_telemetry 1000 frame_discharge_ff (__init__ sample_ble_device)))
     = Some (truediv 4294967295 100)
  /\ truediv 4294967295 100
     <> truediv (spec_signed32 (spec_le32 frame_discharge_ff 132)) 100
  /\ PrimFloat.ltb 0 (truediv 4294967295 100) = true
  /\ PrimFloat.ltb (truediv (spec_signed32 (spec_le32 frame_discharge_ff 132)) 100) 0
     = true.
Proof.
  destruct frame_discharge_ff_valid as [Hlen [Hm Hs]].
  split; [exact Hlen|]. split; [exact Hm|]. split; [exact Hs|].
  split; [vm_compute; reflexivity|]. split; [vm_compute; reflexivity|].
  split.
  { rewrite (parse_telemetry_frame 1000 _ (__init__ sample_ble_device) Hlen Hm Hs).
    vm_compute. reflexivity. }
  split; [|split; vm_compute; reflexivity].
  vm_compute. intros H. discriminate H.
Qed.

(** C8, amended: on every valid frame the discharge power is the unsigned
    32-bit little-endian integer at bytes 132..135 divided by 100.0.  That
    integer is never negative, and with the top bit of byte 135 set it is
    at least 2^31. *)
Theorem discharge_power_is_unsigned
  (now : datetime) (data : list byte) (d : SolixBLEDevice) :
  List.length data = 253%nat -> has_marker data -> serial_is_ascii data = true ->
  exists d',
    _parse_telemetry now data d = (Returned tt, d')
    /\ _power_battery_discharge d' = Some (truediv (spec_le32 data 132) 100)
    /\ power_battery_discharge d' = PyFloat (truediv (spec_le32 data 132) 100)
    /\ 0 <= spec_le32 data 132 < 2 ^ 32
    /\ (128 <= byte_at data 135 -> 2 ^ 31 <= spec_le32 data 132).
Proof.
  intros Hlen Hm Hs. exists (frame_assignments now data d).
  split; [now apply parse_telemetry_frame|].
  split; [reflexivity|]. split; [reflexivity|].
  split; [apply spec_le32_range|].
  intros Htop. unfold spec_le32, byte_at in *.
  change (132 + 3)%nat with 135%nat.
  pose proof (byte_val_range (nth 132 data x00)).
  pose proof (byte_val_range (nth (132 + 1) data x00)).
  pose proof (byte_val_range (nth (132 + 2) data x00)). lia.
Qed.

Lemma discharge_power_is_unsigned_witness :
  exists d',
    _parse_telemetry 1000 frame_discharge_ff (__init__ sample_ble_device)
    = (Returned tt, d')
    /\ power_battery_discharge d' = PyFloat (truediv 4294967295 100).
Proof.
  destruct (discharge_power_is_unsigned 1000 frame_discharge_ff
              (__init__ sample_ble_device))
    as [d' [Hrun [_ [Hread _]]]].
  - reflexivity.
  - split; reflexivity.
  - reflexivity.
  - exists d'. split; [exact Hrun|]. rewrite Hread. reflexivity.
Defined.

(** C9, as the specification has it, fails: after a valid frame on a fresh
    object [unknown2] is still [None], though byte 91 of the frame is there
    to be read. *)
Lemma unknown2_is_not_extracted :
  List.length sample_frame = 253%nat
  /\ has_marker sample_frame
  /\ serial_is_ascii sample_frame = true
  /\ byte_at sample_frame 91 = 0x55
  /\ fst (_parse_telemetry 1000 sample_frame (__init__ sample_ble_device)) = Returned tt
  /\ unknown2 (snd (_parse_telemetry 1000 sample_frame (__init__ sample_ble_device)))
     = None.
Proof.
  destruct sample_frame_valid as [Hlen [Hm Hs]].
  split; [exact Hlen|]. split; [exact Hm|]. split; [exact Hs|].
  split; [vm_compute; reflexivity|].
  rewrite (parse_telemetry_frame 1000 _ (__init__ sample_ble_device) Hlen Hm Hs).
  split; reflexivity.
Qed.

(** C9, amended: on every valid frame [unknown1] is byte 39 as it stands
    and [unknown3] is the 32-bit little-endian integer at bytes 103..106
    divided by 100000.0; [unknown2] is not assigned and keeps the value it
    had. *)
Theorem unknown_fields_extracted
  (now : datetime) (data : list byte) (d : SolixBLEDevice) :
  List.length data = 253%nat -> has_marker data -> serial_is_ascii data = true ->
  exists d',
    _parse_telemetry now data d = (Returned tt, d')
    /\ unknown1 d' = Some (byte_at data 39)
    /\ unknown3 d' = Some (truediv (spec_le32 data 103) 100000)
    /\ unknown2 d' = unknown2 d.
Proof.
  intros Hlen Hm Hs. exists (frame_assignments now data d).
  split; [now apply parse_telemetry_frame|]. repeat split.
Qed.

Lemma unknown_fields_extracted_witness :
  exists d',
    _parse_telemetry 1000 sample_frame (__init__ sample_ble_device) = (Returned tt, d')
    /\ unknown1 d' = Some 1
    /\ unknown2 d' = None.
Proof.
  destruct (unknown_fields_extracted 1000 sample_frame (__init__ sample_ble_device))
    as [d' [Hrun [H1 [_ H2]]]].
  - reflexivity.
  - split; reflexivity.
  - reflexivity.
  - exists d'. split; [exact Hrun|]. split; [rewrite H1; reflexivity | exact H2].
Defined.

(** ** Accessors *)

(** C10: with both readings known [power_battery] is the solar input
    reading minus the AC output reading, as the accessors give them; with
    either one unknown it is the sentinel -1. *)
Theorem power_battery_is_solar_minus_ac (d : SolixBLEDevice) :
  (forall solar ac,
      _power_solar_in d = Some solar -> _power_ac_out d = Some ac ->
      power_battery d = py_sub (power_solar_in d) (power_ac_out d)
      /\ power_battery d = PyFloat (PrimFloat.sub solar ac))
  /\ (_power_solar_in d = None \/ _power_ac_out d = None ->
      power_battery d = PyInt (-1)).
Proof.
  unfold power_battery, power_solar_in, power_ac_out, float_or_default. split.
  - intros solar ac Hs Ha. rewrite Hs, Ha. split; reflexivity.
  - intros [H | H]; rewrite H; [reflexivity|].
    destruct (_power_solar_in d); reflexivity.
Qed.

Lemma power_battery_is_solar_minus_ac_witness :
  power_battery (snd (_parse_telemetry 1000 sample_frame (__init__ sample_ble_device)))
  = PyFloat (-20)
  /\ power_battery (__init__ sample_ble_device) = PyInt (-1).
Proof.
  split.
  - apply (proj1 (power_battery_is_solar_minus_ac
             (snd (_parse_telemetry 1000 sample_frame (__init__ sample_ble_device))))
             10%float 30%float); reflexivity.
  - apply (proj2 (power_battery_is_solar_minus_ac (__init__ sample_ble_device))).
    left. reflexivity.
Defined.

(** ** The observer registry *)

Section SessionFacts.

Context {E : Type}.
Variable env : Collaborators E.

Lemma skipn_nth_error (l : list callback) (i : nat) (f : callback) :
  nth_error l i = Some f -> skipn i l = f :: skipn (S i) l.
Proof.
  revert l. induction i as [|i IH]; intros [|g l] H; simpl in H; try discriminate.
  - now inversion H.
  - simpl. now apply IH.
Qed.

(** One turn of the loop, when the position holds an observer. *)
Lemma iterate_callbacks_step (fuel i : nat) (w : World E) (f : callback) :
  nth_error (_state_changed_callbacks (self w)) i = Some f ->
  iterate_callbacks env (S fuel) i w =
  match call env f (self w, ext w) with
  | (Returned _, (d, x)) =>
      iterate_callbacks env fuel (S i)
        {| self := d; ext := x; trace := trace w ++ [Called f] |}
  | (Raised e, (d, x)) =>
      Some (Raised e, {| self := d; ext := x; trace := trace w ++ [Called f] |})
  end.
Proof.
  intros H. cbn [iterate_callbacks]. rewrite H.
  unfold sbind, emit, external. cbn [self ext trace].
  destruct (call env f (self w, ext w)) as [[u | e] [d x]]; reflexivity.
Qed.

Lemma iterate_callbacks_done (fuel i : nat) (w : World E) :
  nth_error (_state_changed_callbacks (self w)) i = None ->
  iterate_callbacks env (S fuel) i w = Some (Returned tt, w).
Proof. intros H. cbn [iterate_callbacks]. rewrite H. reflexivity. Qed.

(** Whatever the observers do, the loop adds nothing to the trace but the
    calls it makes. *)
Lemma iterate_callbacks_trace (fuel : nat) :
  forall (i : nat) (w : World E) (r : outcome unit) (w' : World E),
    iterate_callbacks env fuel i w = Some (r, w') ->
    exists fs, trace w' = trace w ++ map Called fs.
Proof.
  induction fuel as [|fuel IH]; intros i w r w' Hrun; [discriminate|].
  destruct (nth_error (_state_changed_callbacks (self w)) i) as [f|] eqn:Hi.
  - rewrite (iterate_callbacks_step _ _ _ _ Hi) in Hrun.
    destruct (call env f (self w, ext w)) as [[u | e] [d x]].
    + apply IH in Hrun. destruct Hrun as [fs Hfs]. cbn [trace] in Hfs.
      exists (f :: fs). rewrite Hfs, <- app_assoc. reflexivity.
    + inversion Hrun; subst. exists [f]. reflexivity.
  - rewrite (iterate_callbacks_done _ _ _ Hi) in Hrun. inversion Hrun; subst.
    exists []. cbn [map]. now rewrite app_nil_r.
Qed.

(** With observers that leave the registry alone the loop walks the list
    as it stood at the start, from position [i], and stops after the first
    observer that raises. *)
Lemma iterate_callbacks_in_order (Hkeep : keeps_registry env) (fuel : nat) :
  forall (i : nat) (w : World E),
    (List.length (_state_changed_callbacks (self w)) - i < fuel)%nat ->
    exists n r w',
      iterate_callbacks env fuel i w = Some (r, w')
      /\ trace w' =
         trace w ++ map Called (firstn n (skipn i (_state_changed_callbacks (self w))))
      /\ ((r = Returned tt
           /\ n = (List.length (_state_changed_callbacks (self w)) - i)%nat)
          \/ (exists e f s,
                 r = Raised e /\ (0 < n)%nat
                 /\ nth_error (_state_changed_callbacks (self w)) (i + n - 1) = Some f
                 /\ fst (call env f s) = Raised e)).
Proof.
  induction fuel as [|fuel IH]; intros i w Hfuel; [lia|].
  destruct (nth_error (_state_changed_callbacks (self w)) i) as [f|] eqn:Hi.
  - assert (Hlt : (i < List.length (_state_changed_callbacks (self w)))%nat)
      by (apply nth_error_Some; rewrite Hi; discriminate).
    rewrite (iterate_callbacks_step _ _ _ _ Hi).
    pose proof (Hkeep f (self w) (ext w)) as Hk.
    destruct (call env f (self w, ext w)) as [[u | e] [d x]] eqn:Hcall; cbn [fst snd] in Hk.
    + destruct (IH (S i) {| self := d; ext := x; trace := trace w ++ [Called f] |})
        as [n [r [w' [Hrun [Htr Hres]]]]].
      { cbn [self]. rewrite Hk. lia. }
      cbn [self trace] in Htr, Hres. rewrite Hk in Htr, Hres.
      exists (S n), r, w'. split; [exact Hrun|]. split.
      * rewrite Htr, (skipn_nth_error _ _ _ Hi), <- app_assoc. reflexivity.
      * destruct Hres as [[Hr Hn] | [e [g [s [Hr [Hpos [Hnth Hraise]]]]]]].
        -- left. split; [exact Hr | lia].
        -- right. exists e, g, s. repeat split; try assumption; try lia.
           replace (i + S n - 1)%nat with (S i + n - 1)%nat by lia. exact Hnth.
    + exists 1%nat, (Raised e), {| self := d; ext := x; trace := trace w ++ [Called f] |}.
      split; [reflexivity|]. split.
      * cbn [trace]. rewrite (skipn_nth_error _ _ _ Hi). reflexivity.
      * right. exists e, f, (self w, ext w). repeat split; try lia.
        -- replace (i + 1 - 1)%nat with i by lia. exact Hi.
        -- rewrite Hcall. reflexivity.
  - rewrite (iterate_callbacks_done _ _ _ Hi).
    apply nth_error_None in Hi.
    exists 0%nat, (Returned tt), w. split; [reflexivity|]. split.
    + cbn [firstn map]. now rewrite app_nil_r.
    + left. split; [reflexivity | lia].
Qed.

End SessionFacts.

(** ** The loop against the list walked in order *)

Section NotifyFacts.

Context {E : Type}.
Variable env : Collaborators E.

(** With observers that leave the registry alone the loop is the walk of
    the list as it stood at the start. *)
Lemma iterate_callbacks_notify (Hkeep : keeps_registry env) (fuel : nat) :
  forall (i : nat) (w : World E),
    (List.length (_state_changed_callbacks (self w)) - i < fuel)%nat ->
    iterate_callbacks env fuel i w
    = Some (notify_in_order env (skipn i (_state_changed_callbacks (self w))) w).
Proof.
  induction fuel as [|fuel IH]; intros i w Hfuel; [lia|].
  destruct (nth_error (_state_changed_callbacks (self w)) i) as [f|] eqn:Hi.
  - assert (Hlt : (i < List.length (_state_changed_callbacks (self w)))%nat)
      by (apply nth_error_Some; rewrite Hi; discriminate).
    rewrite (iterate_callbacks_step _ _ _ _ _ Hi), (skipn_nth_error _ _ _ Hi).
    cbn [notify_in_order].
    pose proof (Hkeep f (self w) (ext w)) as Hk.
    destruct (call env f (self w, ext w)) as [[u | e] [d x]]; cbn [fst snd] in Hk.
    + rewrite IH by (cbn [self]; rewrite Hk; lia). cbn [self]. now rewrite Hk.
    + reflexivity.
  - rewrite (iterate_callbacks_done _ _ _ _ Hi).
    apply nth_error_None in Hi. now rewrite skipn_all2 by exact Hi.
Qed.

Lemma notify_in_order_returned (fs : list callback) :
  forall (w w' : World E),
    notify_in_order env fs w = (Returned tt, w') ->
    trace w' = trace w ++ map Called fs.
Proof.
  induction fs as [|f rest IH]; intros w w' Hrun; cbn [notify_in_order] in Hrun.
  - inversion Hrun; subst. cbn [map]. now rewrite app_nil_r.
  - destruct (call env f (self w, ext w)) as [[u | e] [d x]]; [|discriminate Hrun].
    apply IH in Hrun. cbn [trace] in Hrun. rewrite Hrun, <- app_assoc. reflexivity.
Qed.

(** A notification that raises: the observers before some position
    returned, and the one at that position, called in the state they left,
    raised the exception. *)
Lemma notify_in_order_raised (fs : list callback) :
  forall (w w' : World E) (e : exn),
    notify_in_order env fs w = (Raised e, w') ->
    exists n f w_n,
      nth_error fs n = Some f
      /\ notify_in_order env (firstn n fs) w = (Returned tt, w_n)
      /\ fst (call env f (self w_n, ext w_n)) = Raised e
      /\ trace w' = trace w ++ map Called (firstn (S n) fs).
Proof.
  induction fs as [|f rest IH]; intros w w' e Hrun; cbn [notify_in_order] in Hrun;
    [discriminate Hrun|].
  destruct (call env f (self w, ext w)) as [[u | e0] [d x]] eqn:Hcall.
  - destruct (IH _ _ _ Hrun) as [n [g [w_n [Hnth [Hbefore [Hraise Htrace]]]]]].
    exists (S n), g, w_n. split; [exact Hnth|]. split.
    + cbn [firstn notify_in_order]. rewrite Hcall. exact Hbefore.
    + split; [exact Hraise|]. cbn [trace] in Htrace.
      rewrite Htrace, <- app_assoc. reflexivity.
  - inversion Hrun; subst. exists 0%nat, f, w. split; [reflexivity|].
    split; [reflexivity|]. split; [now rewrite Hcall | reflexivity].
Qed.

(** An observer that raises whenever it is called, behind observers that
    return whenever they are called, makes the notification raise. *)
Lemma notify_in_order_raiser (n : nat) :
  forall (fs : list callback) (w : World E) (f : callback) (e : exn),
    nth_error fs n = Some f ->
    (forall s, fst (call env f s) = Raised e) ->
    (forall g, In g (firstn n fs) -> forall s, fst (call env g s) = Returned tt) ->
    exists w',
      notify_in_order env fs w = (Raised e, w')
      /\ trace w' = trace w ++ map Called (firstn (S n) fs).
Proof.
  induction n as [|n IH]; intros [|g rest] w f e Hnth Hraise Hbefore;
    cbn [nth_error] in Hnth; try discriminate Hnth.
  - inversion Hnth; subst. cbn [notify_in_order].
    pose proof (Hraise (self w, ext w)) as Hcall.
    destruct (call env f (self w, ext w)) as [[u | e0] [d x]]; cbn [fst] in Hcall;
      [discriminate Hcall|].
    inversion Hcall; subst. eexists. split; reflexivity.
  - cbn [notify_in_order].
    pose proof (Hbefore g (or_introl eq_refl) (self w, ext w)) as Hcall.
    destruct (call env g (self w, ext w)) as [[u | e0] [d x]]; cbn [fst] in Hcall;
      [|discriminate Hcall].
    destruct (IH rest {| self := d; ext := x; trace := trace w ++ [Called g] |} f e Hnth
                Hraise)
      as [w' [Hrun Htrace]].
    { intros h Hin. apply Hbefore. now right. }
    exists w'. split; [exact Hrun|]. cbn [trace] in Htrace.
    rewrite Htrace, <- app_assoc. reflexivity.
Qed.

Lemma notify_in_order_all_return (fs : list callback) :
  forall (w : World E),
    (forall g, In g fs -> forall s, fst (call env g s) = Returned tt) ->
    fst (notify_in_order env fs w) = Returned tt.
Proof.
  induction fs as [|f rest IH]; intros w Hall; cbn [notify_in_order]; [reflexivity|].
  pose proof (Hall f (or_introl eq_refl) (self w, ext w)) as Hcall.
  destruct (call env f (self w, ext w)) as [[u | e0] [d x]]; cbn [fst] in Hcall;
    [|discriminate Hcall].
  apply IH. intros g Hin. apply Hall. now right.
Qed.

(** The notification itself, under the two provisos. *)
Lemma run_callbacks_notify (Hkeep : keeps_registry env) (fuel : nat) (w : World E) :
  (List.length (_state_changed_callbacks (self w)) < fuel)%nat ->
  _run_state_changed_callbacks env fuel w
  = Some (notify_in_order env (_state_changed_callbacks (self w)) w).
Proof.
  intros Hfuel. unfold _run_state_changed_callbacks.
  rewrite (iterate_callbacks_notify Hkeep fuel 0 w) by lia. reflexivity.
Qed.

End NotifyFacts.

(** C2, as the specification has it, fails: with observers [0] and [1]
    registered in that order and [0] raising, the notification calls [0],
    the exception leaves the method, and [1] is never called. *)
Lemma raising_callback_stops_notification :
  _state_changed_callbacks (self world_available) = [0%nat; 1%nat]
  /\ _run_state_changed_callbacks env_first_raises 3 world_available
     = Some (Raised (CallbackError 0),
             {| self := device_available; ext := tt; trace := [Called 0%nat] |})
  /\ ~ In (Called 1%nat) [Called 0%nat].
Proof.
  split; [reflexivity|]. split; [reflexivity|].
  intros [H | []]. discriminate H.
Qed.

(** The loop reads the live list: an observer that unregisters itself
    moves its successor into the position just visited, and the successor
    is not called. *)
Lemma self_removing_callback_skips_next :
  _run_state_changed_callbacks env_self_removing 3 world_available
  = Some (Returned tt,
          {| self := set_state_changed_callbacks [1%nat] device_available;
             ext := tt;
             trace := [Called 0%nat] |}).
Proof. vm_compute. reflexivity. Qed.

(** C2, amended: with observers that do not change the registry, and fuel
    for one turn per registered observer, a notification has a result, and
    it is that of calling the registered functions in registration order,
    each once, and stopping at the first that raises.  When it returns
    normally every registered function was called, once, in order.  When
    it raises, the functions before some position returned, the one at
    that position raised the exception that leaves the notification, and
    no function after it was called.  An observer that raises whenever
    called, behind observers that return whenever called, makes the
    notification raise its exception with the later observers not called;
    observers that all return make it return. *)
Theorem run_callbacks_in_registration_order
  {E : Type} (env : Collaborators E) (fuel : nat) (w : World E) :
  keeps_registry env ->
  (List.length (_state_changed_callbacks (self w)) < fuel)%nat ->
  exists r w',
    _run_state_changed_callbacks env fuel w = Some (r, w')
    /\ notify_in_order env (_state_changed_callbacks (self w)) w = (r, w')
    /\ (r = Returned tt ->
        trace w' = trace w ++ map Called (_state_changed_callbacks (self w)))
    /\ (forall e,
           r = Raised e ->
           exists n f w_n,
             nth_error (_state_changed_callbacks (self w)) n = Some f
             /\ notify_in_order env (firstn n (_state_changed_callbacks (self w))) w
                = (Returned tt, w_n)
             /\ fst (call env f (self w_n, ext w_n)) = Raised e
             /\ trace w' =
                trace w ++ map Called (firstn (S n) (_state_changed_callbacks (self w))))
    /\ (forall n f e,
           nth_error (_state_changed_callbacks (self w)) n = Some f ->
           (forall s, fst (call env f s) = Raised e) ->
           (forall g, In g (firstn n (_state_changed_callbacks (self w))) ->
                      forall s, fst (call env g s) = Returned tt) ->
           r = Raised e
           /\ trace w' =
              trace w ++ map Called (firstn (S n) (_state_changed_callbacks (self w))))
    /\ ((forall g, In g (_state_changed_callbacks (self w)) ->
                   forall s, fst (call env g s) = Returned tt) ->
        r = Returned tt).
Proof.
  intros Hkeep Hfuel.
  destruct (notify_in_order env (_state_changed_callbacks (self w)) w) as [r w'] eqn:Hwalk.
  exists r, w'.
  split; [rewrite (run_callbacks_notify env Hkeep fuel w Hfuel); now rewrite Hwalk|].
  split; [reflexivity|]. split; [|split; [|split]].
  - intros ->. now apply (notify_in_order_returned env _ _ _ Hwalk).
  - intros e ->. now apply (notify_in_order_raised env _ _ _ _ Hwalk).
  - intros n f e Hnth Hraise Hbefore.
    destruct (notify_in_order_raiser env n _ w f e Hnth Hraise Hbefore) as [w1 [Hrun Htrace]].
    rewrite Hwalk in Hrun. inversion Hrun; subst. split; [reflexivity | exact Htrace].
  - intros Hall.
    pose proof (notify_in_order_all_return env _ w Hall) as Hret.
    rewrite Hwalk in Hret. exact Hret.
Qed.

Lemma env_quiet_keeps_registry : keeps_registry env_quiet.
Proof. intros f d x. reflexivity. Qed.

Lemma env_first_raises_keeps_registry : keeps_registry env_first_raises.
Proof. intros f d x. cbn. destruct (Nat.eqb f 0); reflexivity. Qed.

Lemma run_callbacks_in_registration_order_witness :
  (exists w',
      _run_state_changed_callbacks env_first_raises 3 world_available
      = Some (Raised (CallbackError 0), w')
      /\ trace w' = [Called 0%nat])
  /\ (exists w',
         _run_state_changed_callbacks env_quiet 3 world_available
         = Some (Returned tt, w')
         /\ trace w' = [Called 0%nat; Called 1%nat]).
Proof.
  split.
  - destruct (run_callbacks_in_registration_order env_first_raises 3 world_available
                env_first_raises_keeps_registry)
      as [r [w' [Hrun [_ [_ [_ [Hraiser _]]]]]]].
    { cbn. lia. }
    destruct (Hraiser 0%nat 0%nat (CallbackError 0)) as [Hr Htrace].
    + reflexivity.
    + intros s. reflexivity.
    + intros g [].
    + subst r. exists w'. split; [exact Hrun | exact Htrace].
  - destruct (run_callbacks_in_registration_order env_quiet 3 world_available
                env_quiet_keeps_registry)
      as [r [w' [Hrun [_ [Hall [_ [_ Hreturn]]]]]]].
    { cbn. lia. }
    assert (Hr : r = Returned tt) by (apply Hreturn; intros g _ s; reflexivity).
    subst r. exists w'. split; [exact Hrun | exact (Hall eq_refl)].
Defined.

(** ** Connecting and disconnecting *)

(** On a session that is up and subscribed every test of [connect] falls
    through to the success tail. *)
Lemma connect_available_unfold
  {E : Type} (env : Collaborators E) (fuel : nat) (max_attempts : Z)
  (run_callbacks : bool) (w : World E) :
  connected env w = true -> supports_telemetry (self w) = true ->
  connect env fuel max_attempts run_callbacks w =
  sbind (if run_callbacks then _run_state_changed_callbacks env fuel else sret tt)
        (fun _ => sret true)
        (with_self (set_connection_attempts 0 (set_expect_disconnect false (self w))) w).
Proof.
  intros Hc Hs. unfold connect.
  unfold sbind at 1. unfold observe at 1. rewrite Hc. cbn [negb].
  unfold sbind at 1. unfold sret at 1.
  unfold sbind at 1. unfold observe at 1. rewrite Hc. cbn [negb].
  unfold sbind at 1. unfold observe at 1. unfold available. rewrite Hc, Hs. cbn [negb andb].
  unfold sbind at 1. unfold sret at 1.
  unfold sbind at 1. unfold observe at 1. rewrite Hc, Hs. cbn [negb andb].
  reflexivity.
Qed.

(** C5, as the specification has it, fails: on a session that is up and
    subscribed, [connect] with [run_callbacks] set notifies the observers,
    and when one of them raises the call does not return [True]: the
    exception leaves [connect]. *)
Lemma connect_available_can_raise :
  connected env_first_raises world_available = true
  /\ supports_telemetry (self world_available) = true
  /\ connect env_first_raises 3 3 true world_available
     = Some (Raised (CallbackError 0),
             {| self := device_available; ext := tt; trace := [Called 0%nat] |}).
Proof. repeat split. Qed.

(** C5, amended: on a session that is up and has the telemetry flag set,
    [connect] makes no call into the transport (no link establishment, no
    attribute probe, no subscription): whatever its result, the only events
    are calls of observers.  It never returns [False].  With
    [run_callbacks] unset it returns [True] at once; with it set it
    returns [True] whenever the notification of the observers returns, and
    when the notification raises, that exception is the outcome of
    [connect]: an observer that raises whenever called, behind observers
    that return, makes [connect] raise its exception, and observers that
    all return make it return [True] having called each of them once in
    order.  With observers that leave the registry alone and fuel for each
    of them it has a result. *)
Theorem connect_when_available_short_circuits
  {E : Type} (env : Collaborators E) (fuel : nat) (max_attempts : Z)
  (run_callbacks : bool) (w : World E) :
  connected env w = true -> supports_telemetry (self w) = true ->
  (run_callbacks = false ->
   connect env fuel max_attempts run_callbacks w
   = Some (Returned true,
           with_self (set_connection_attempts 0 (set_expect_disconnect false (self w))) w))
  /\ (forall w2,
         run_callbacks = true ->
         _run_state_changed_callbacks env fuel
           (with_self (set_connection_attempts 0 (set_expect_disconnect false (self w))) w)
         = Some (Returned tt, w2) ->
         connect env fuel max_attempts run_callbacks w = Some (Returned true, w2))
  /\ (forall r w',
         connect env fuel max_attempts run_callbacks w = Some (r, w') ->
         r <> Returned false
         /\ (exists fs, trace w' = trace w ++ map Called fs)
         /\ (run_callbacks = false -> trace w' = trace w))
  /\ (keeps_registry env ->
      (List.length (_state_changed_callbacks (self w)) < fuel)%nat ->
      exists r w', connect env fuel max_attempts run_callbacks w = Some (r, w'))
  /\ (forall e w2,
         run_callbacks = true ->
         _run_state_changed_callbacks env fuel
           (with_self (set_connection_attempts 0 (set_expect_disconnect false (self w))) w)
         = Some (Raised e, w2) ->
         connect env fuel max_attempts run_callbacks w = Some (Raised e, w2))
  /\ (run_callbacks = true ->
      keeps_registry env ->
      (List.length (_state_changed_callbacks (self w)) < fuel)%nat ->
      forall n f e,
        nth_error (_state_changed_callbacks (self w)) n = Some f ->
        (forall s, fst (call env f s) = Raised e) ->
        (forall g, In g (firstn n (_state_changed_callbacks (self w))) ->
                   forall s, fst (call env g s) = Returned tt) ->
        exists w',
          connect env fuel max_attempts run_callbacks w = Some (Raised e, w')
          /\ trace w' =
             trace w ++ map Called (firstn (S n) (_state_changed_callbacks (self w))))
  /\ (run_callbacks = true ->
      keeps_registry env ->
      (List.length (_state_changed_callbacks (self w)) < fuel)%nat ->
      (forall g, In g (_state_changed_callbacks (self w)) ->
                 forall s, fst (call env g s) = Returned tt) ->
      exists w',
        connect env fuel max_attempts run_callbacks w = Some (Returned true, w')
        /\ trace w' = trace w ++ map Called (_state_changed_callbacks (self w))).
Proof.
  intros Hc Hs. rewrite (connect_available_unfold env fuel max_attempts run_callbacks w Hc Hs).
  split; [|split; [|split; [|split; [|split; [|split]]]]].
  - intros ->. reflexivity.
  - intros w2 -> Hrun. unfold sbind. rewrite Hrun. reflexivity.
  - intros r w'. destruct run_callbacks.
    + unfold sbind, _run_state_changed_callbacks.
      destruct (iterate_callbacks env fuel 0 _) as [[[u | e] w2]|] eqn:Hrun;
        intros Hres; [| |discriminate Hres].
      * inversion Hres; subst. apply iterate_callbacks_trace in Hrun.
        split; [discriminate|]. split; [exact Hrun|discriminate].
      * inversion Hres; subst. apply iterate_callbacks_trace in Hrun.
        split; [discriminate|]. split; [exact Hrun|discriminate].
    + intros Hres. inversion Hres; subst.
      split; [discriminate|]. split; [|reflexivity].
      exists []. cbn [map trace with_self]. now rewrite app_nil_r.
  - intros Hkeep Hfuel. destruct run_callbacks.
    + destruct (iterate_callbacks_in_order env Hkeep fuel 0
                  (with_self (set_connection_attempts 0
                                (set_expect_disconnect false (self w))) w))
        as [n [r [w' [Hrun _]]]].
      { cbn [self with_self _state_changed_callbacks set_connection_attempts
             set_expect_disconnect]. lia. }
      unfold sbind, _run_state_changed_callbacks. rewrite Hrun.
      destruct r as [u | e]; eexists _, _; reflexivity.
    + eexists _, _. reflexivity.
  - intros e w2 -> Hrun. unfold sbind. rewrite Hrun. reflexivity.
  - intros -> Hkeep Hfuel n f e Hnth Hraise Hbefore.
    destruct (notify_in_order_raiser env n (_state_changed_callbacks (self w))
                (with_self (set_connection_attempts 0
                              (set_expect_disconnect false (self w))) w)
                f e Hnth Hraise Hbefore)
      as [w' [Hwalk Htrace]].
    exists w'. split; [|exact Htrace].
    unfold sbind. rewrite (run_callbacks_notify env Hkeep fuel) by exact Hfuel.
    cbn [self with_self _state_changed_callbacks set_connection_attempts
         set_expect_disconnect].
    fold (with_self (set_connection_attempts 0 (set_expect_disconnect false (self w))) w).
    rewrite Hwalk. reflexivity.
  - intros -> Hkeep Hfuel Hall.
    pose proof (notify_in_order_all_return env (_state_changed_callbacks (self w))
                  (with_self (set_connection_attempts 0
                                (set_expect_disconnect false (self w))) w) Hall) as Hret.
    destruct (notify_in_order env (_state_changed_callbacks (self w))
                (with_self (set_connection_attempts 0
                              (set_expect_disconnect false (self w))) w))
      as [r w'] eqn:Hwalk.
    cbn [fst] in Hret. subst r.
    exists w'. split; [|exact (notify_in_order_returned env _ _ _ Hwalk)].
    unfold sbind. rewrite (run_callbacks_notify env Hkeep fuel) by exact Hfuel.
    cbn [self with_self _state_changed_callbacks set_connection_attempts
         set_expect_disconnect].
    fold (with_self (set_connection_attempts 0 (set_expect_disconnect false (self w))) w).
    rewrite Hwalk. reflexivity.
Qed.

Lemma connect_when_available_short_circuits_witness :
  connect env_quiet 3 3 false world_available
  = Some (Returned true,
          with_self (set_connection_attempts 0
                       (set_expect_disconnect false (self world_available)))
                    world_available)
  /\ connect env_quiet 3 3 true world_available
     = Some (Returned true,
             {| self := device_available; ext := tt;
                trace := [Called 0%nat; Called 1%nat] |})
  /\ (exists w',
         connect env_first_raises 3 3 true world_available
         = Some (Raised (CallbackError 0), w')
         /\ trace w' = [Called 0%nat]).
Proof.
  split; [|split].
  - apply (proj1 (connect_when_available_short_circuits env_quiet 3 3 false
                    world_available eq_refl eq_refl)).
    reflexivity.
  - apply (proj1 (proj2 (connect_when_available_short_circuits env_quiet 3 3 true
                           world_available eq_refl eq_refl)));
      reflexivity.
  - apply (proj1 (proj2 (proj2 (proj2 (proj2 (proj2
             (connect_when_available_short_circuits env_first_raises 3 3 true
                world_available eq_refl eq_refl)))))) eq_refl
             env_first_raises_keeps_registry (le_n 3) 0%nat 0%nat (CallbackError 0)).
    + reflexivity.
    + intros s. reflexivity.
    + intros g [].
Defined.

(** C6: a disconnect signal whose client is not the one the object holds
    leaves the session exactly as it was: every attribute (the telemetry
    flag and the reconnect task among them), the outside and the trace are
    unchanged, so no task is spawned and no observer is called. *)
Theorem stale_disconnect_signal_is_ignored
  {E : Type} (c : client) (w : World E) :
  _client (self w) <> Some c ->
  _disconnect_callback c w = Some (Returned tt, w).
Proof.
  intros Hstale. destruct w as [d x t]. cbn [self] in Hstale.
  unfold _disconnect_callback, sbind, on_self, read, with_self. cbn [self ext trace].
  destruct (_client d) as [held|]; [|reflexivity].
  destruct (Nat.eqb_spec c held) as [-> | Hne]; [now contradiction Hstale|].
  reflexivity.
Qed.

Lemma stale_disconnect_signal_is_ignored_witness :
  _client (self world_available) = Some 7%nat
  /\ _disconnect_callback 3%nat world_available = Some (Returned tt, world_available).
Proof.
  split; [reflexivity|].
  apply (stale_disconnect_signal_is_ignored 3%nat world_available).
  cbn. discriminate.
Defined.

(** X23: what [disconnect] does from any state: it returns, with the
    expected-disconnect flag set and no client held; the one event is the
    call of the client's [disconnect], when there was a client; the
    telemetry flag is what it was; and from then on the disconnect handler
    ignores the signal of every client. *)
Lemma disconnect_effect {E : Type} (w : World E) :
  exists w',
    disconnect w = Some (Returned tt, w')
    /\ _expect_disconnect (self w') = true
    /\ _client (self w') = None
    /\ _supports_telemetry (self w') = _supports_telemetry (self w)
    /\ _state_changed_callbacks (self w') = _state_changed_callbacks (self w)
    /\ trace w' = trace w ++ match _client (self w) with
                             | Some c => [ClientDisconnect c]
                             | None => []
                             end
    /\ (forall c, _disconnect_callback c w' = Some (Returned tt, w')).
Proof.
  destruct w as [d x t].
  unfold disconnect, sbind, on_self, assign, read, emit, sret, with_self.
  cbn [self ext trace set_expect_disconnect _client].
  destruct (_client d) as [c|] eqn:Hc.
  - eexists. split; [reflexivity|]. cbn [self trace]. repeat split.
  - eexists. split; [reflexivity|]. cbn [self trace]. repeat split.
    + cbn. exact Hc.
    + now rewrite app_nil_r.
    + intros c. unfold _disconnect_callback, sbind, on_self, read, with_self.
      cbn [self ext trace]. cbn. rewrite Hc. reflexivity.
Qed.

(** C7 at a failing input: the session is up and subscribed on client 7.
    After [disconnect] the telemetry flag is still set; the late signal of
    client 7 is dropped by the handler, which is where the flag would be
    cleared; and a following [connect], finding the flag set on the new
    link, returns [True] without probing or subscribing. *)
Theorem disconnect_keeps_telemetry_flag :
  supports_telemetry (self world_available) = true
  /\ disconnect world_available = Some (Returned tt, world_disconnected)
  /\ _client (self world_disconnected) = None
  /\ _expect_disconnect (self world_disconnected) = true
  /\ supports_telemetry (self world_disconnected) = true
  /\ _disconnect_callback 7%nat world_disconnected
     = Some (Returned tt, world_disconnected)
  /\ option_map (fun r => (fst r, trace (snd r)))
       (connect env_quiet 3 3 false world_disconnected)
     = Some (Returned true, [ClientDisconnect 7%nat; EstablishConnection 3]).
Proof. repeat split; vm_compute; reflexivity. Qed.

(** * Further properties of the code *)

(** ** The decoder over a life of notifications *)

Lemma has_marker_dec (data : list byte) : {has_marker data} + {~ has_marker data}.
Proof.
  unfold has_marker.
  destruct (Z.eq_dec (byte_at data 8) 0x05); destruct (Z.eq_dec (byte_at data 9) 0x13);
    try (left; split; assumption); right; intros [H8 H9]; contradiction.
Qed.

(** The three ways a call of [_parse_telemetry] can go. *)
Lemma parse_telemetry_cases now data d :
  _parse_telemetry now data d = (Returned tt, d)
  \/ (List.length data = 253%nat /\ has_marker data
      /\ _parse_telemetry now data d
         = (Raised UnicodeDecodeError,
            set_last_data_timestamp (Some now) (set_data (Some data) d)))
  \/ (List.length data = 253%nat /\ has_marker data
      /\ _parse_telemetry now data d = (Returned tt, frame_assignments now data d)).
Proof.
  destruct (Nat.eq_dec (List.length data) 253) as [Hlen | Hlen].
  - destruct (has_marker_dec data) as [Hm | Hm].
    + destruct (serial_is_ascii data) eqn:Hs.
      * right; right. repeat split; try apply Hm; try assumption.
        now apply parse_telemetry_frame.
      * right; left. repeat split; try apply Hm; try assumption.
        now apply parse_telemetry_bad_serial.
    + left. now apply parse_telemetry_wrong_marker.
  - left. now apply parse_telemetry_wrong_size.
Qed.

Lemma frame_assignments_decoded_set now data d : decoded_set (frame_assignments now data d).
Proof. unfold decoded_set. repeat split; intros H; discriminate H. Qed.

Lemma frame_assignments_same_session now data d :
  same_session d (frame_assignments now data d).
Proof. unfold same_session. repeat split. Qed.

Lemma decode_invariant_step now data d :
  decode_invariant d -> decode_invariant (snd (_parse_telemetry now data d)).
Proof.
  intros Hinv.
  destruct (parse_telemetry_cases now data d)
    as [Hrun | [[Hlen [Hm Hrun]] | [Hlen [Hm Hrun]]]]; rewrite Hrun; cbn [snd].
  - exact Hinv.
  - destruct Hinv as [Hfields [Hu2 [_ [_ _]]]].
    split; [exact Hfields|]. split; [exact Hu2|].
    split; [split; intros H; discriminate H|].
    split; [intros _ H; discriminate H|].
    intros bs H. cbn in H. inversion H; subst. split; assumption.
  - destruct Hinv as [_ [Hu2 _]].
    split; [right; apply frame_assignments_decoded_set|].
    split; [exact Hu2|].
    split; [split; intros H; discriminate H|].
    split; [intros _ H; discriminate H|].
    intros bs H. change (Some data = Some bs) in H. inversion H; subst. split; assumption.
Qed.

Lemma same_session_step now data d :
  same_session d (snd (_parse_telemetry now data d)).
Proof.
  destruct (parse_telemetry_cases now data d)
    as [Hrun | [[_ [_ Hrun]] | [_ [_ Hrun]]]]; rewrite Hrun; cbn [snd].
  - unfold same_session. repeat split.
  - unfold same_session. repeat split.
  - apply frame_assignments_same_session.
Qed.

Lemma same_session_trans d1 d2 d3 :
  same_session d1 d2 -> same_session d2 d3 -> same_session d1 d3.
Proof.
  unfold same_session.
  intros [A1 [A2 [A3 [A4 [A5 [A6 [A7 [A8 [A9 A10]]]]]]]]]
         [B1 [B2 [B3 [B4 [B5 [B6 [B7 [B8 [B9 B10]]]]]]]]].
  repeat split; etransitivity; eassumption.
Qed.

Lemma feed_invariant inputs :
  forall d, decode_invariant d -> decode_invariant (feed d inputs).
Proof.
  induction inputs as [|[now data] inputs IH]; intros d Hinv; [exact Hinv|].
  cbn [feed fold_left fst snd]. apply IH. now apply decode_invariant_step.
Qed.

Lemma feed_same_session inputs :
  forall d, same_session d (feed d inputs).
Proof.
  induction inputs as [|[now data] inputs IH]; intros d.
  - unfold same_session. repeat split.
  - cbn [feed fold_left fst snd].
    eapply same_session_trans; [apply same_session_step | apply IH].
Qed.

(** X1: whatever payloads reach the decoder over the life of an object,
    and whether its calls return or raise, the decoded attributes are all
    unset or all set (never a frame in part), [unknown2] is never set, the
    stored payload and the timestamp are set together, a stored payload is
    253 bytes with the marker, and decoded attributes imply a stored
    payload. *)
Theorem decode_sequence_invariant
  (ble_device : BLEDevice) (inputs : list (datetime * list byte)) :
  decode_invariant (feed (__init__ ble_device) inputs).
Proof.
  apply feed_invariant. unfold decode_invariant, decoded_unset. cbn.
  split; [left; repeat split|]. split; [reflexivity|].
  split; [split; reflexivity|]. split.
  - intros [H _]. now contradiction H.
  - intros bs H. discriminate H.
Qed.

(** X2: the decoder never touches an attribute of the session: the client,
    the telemetry flag, the registry, the reconnect task and counter, the
    expected-disconnect and timed-out flags are after any sequence of
    payloads what they were before it. *)
Theorem decoder_leaves_session_alone
  (d : SolixBLEDevice) (inputs : list (datetime * list byte)) :
  same_session d (feed d inputs).
Proof. apply feed_same_session. Qed.

(** ** Integer reads at the edge of the payload *)

Lemma int_from_bytes_little_range (bs : list byte) :
  0 <= int_from_bytes_little bs < 2 ^ (8 * Z.of_nat (List.length bs)).
Proof.
  induction bs as [|b bs IH].
  - cbn. lia.
  - cbn [int_from_bytes_little List.length].
    pose proof (byte_val_range b) as Hb.
    replace (8 * Z.of_nat (S (List.length bs))) with (8 + 8 * Z.of_nat (List.length bs)) by lia.
    rewrite Z.pow_add_r by lia. change (2 ^ 8) with 256. nia.
Qed.

Lemma slice_length_le (data : list byte) (i j : nat) :
  (List.length (slice data i j) <= j - i)%nat.
Proof. unfold slice. apply firstn_le_length. Qed.

Lemma slice_past_end (data : list byte) (i j : nat) :
  (List.length data <= i)%nat -> slice data i j = [].
Proof. intros H. unfold slice. rewrite skipn_all2 by exact H. apply firstn_nil. Qed.

Lemma slice_last_byte (data : list byte) (i n : nat) :
  (i + 1 = List.length data)%nat -> (0 < n)%nat ->
  slice data i (i + n) = [nth i data x00].
Proof.
  intros H Hn. unfold slice. replace (i + n - i)%nat with n by lia.
  rewrite (skipn_cons_nth data i) by lia.
  rewrite skipn_all2 by lia. destruct n; [lia|]. cbn [firstn].
  now rewrite firstn_nil.
Qed.

Lemma from_bytes_slice_range (data : list byte) (i n : nat) :
  0 <= int_from_bytes_little (slice data i (i + n)) < 2 ^ (8 * Z.of_nat n).
Proof.
  pose proof (int_from_bytes_little_range (slice data i (i + n))) as H.
  pose proof (slice_length_le data i (i + n)) as Hl.
  replace (i + n - i)%nat with n in Hl by lia.
  assert (2 ^ (8 * Z.of_nat (List.length (slice data i (i + n)))) <= 2 ^ (8 * Z.of_nat n))
    by (apply Z.pow_le_mono_r; lia).
  lia.
Qed.

(** X3: [_parse_int] never raises [IndexError], whatever its docstring
    says.  On a stored payload it returns a number below 2^16 and leaves
    the object alone: the little-endian pair when both bytes are there, the
    last byte alone when only it is, and 0 when the index is at or past the
    end.  With no payload stored it raises [TypeError]. *)
Theorem parse_int_at_the_edges (i : nat) (d : SolixBLEDevice) :
  (forall bs, _data d = Some bs ->
     exists v,
       _parse_int i d = (Returned v, d)
       /\ 0 <= v < 2 ^ 16
       /\ ((i + 2 <= List.length bs)%nat -> v = spec_le16 bs i)
       /\ ((i + 1 = List.length bs)%nat -> v = byte_at bs i)
       /\ ((List.length bs <= i)%nat -> v = 0))
  /\ (_data d = None -> _parse_int i d = (Raised TypeError, d)).
Proof.
  split.
  - intros bs H. exists (int_from_bytes_little (slice bs i (i + 2))).
    split; [unfold _parse_int, bind, read; rewrite H; reflexivity|].
    split; [apply (from_bytes_slice_range bs i 2)|].
    split; [apply from_bytes_le16|]. split.
    + intros Hlast. rewrite (slice_last_byte bs i 2) by lia.
      unfold byte_at. cbn [int_from_bytes_little]. lia.
    + intros Hpast. now rewrite slice_past_end.
  - intros H. unfold _parse_int, bind, read. rewrite H. reflexivity.
Qed.

Lemma parse_int_at_the_edges_witness :
  _parse_int 252 (set_data (Some sample_frame) (__init__ sample_ble_device))
  = (Returned 0, set_data (Some sample_frame) (__init__ sample_ble_device))
  /\ _parse_int 300 (set_data (Some sample_frame) (__init__ sample_ble_device))
     = (Returned 0, set_data (Some sample_frame) (__init__ sample_ble_device))
  /\ _parse_int 77 (__init__ sample_ble_device)
     = (Raised TypeError, __init__ sample_ble_device).
Proof.
  split; [|split].
  - destruct (proj1 (parse_int_at_the_edges 252
                       (set_data (Some sample_frame) (__init__ sample_ble_device)))
                    sample_frame eq_refl)
      as [v [Hrun [_ [_ [Hlast _]]]]].
    rewrite Hrun, (Hlast eq_refl). reflexivity.
  - destruct (proj1 (parse_int_at_the_edges 300
                       (set_data (Some sample_frame) (__init__ sample_ble_device)))
                    sample_frame eq_refl)
      as [v [Hrun [_ [_ [_ Hpast]]]]].
    rewrite Hrun, Hpast; [reflexivity|].
    replace (List.length sample_frame) with 253%nat by reflexivity. lia.
  - apply (proj2 (parse_int_at_the_edges 77 (__init__ sample_ble_device))). reflexivity.
Defined.

(** X4: [_parse_int32] never raises [IndexError] either.  On a stored
    payload it returns a number below 2^32 and leaves the object alone:
    the little-endian integer of the four bytes when they are there, of the
    bytes that are left when the payload ends sooner, and 0 at or past the
    end.  With no payload stored it raises [TypeError]. *)
Theorem parse_int32_at_the_edges (i : nat) (d : SolixBLEDevice) :
  (forall bs, _data d = Some bs ->
     exists v,
       _parse_int32 i d = (Returned v, d)
       /\ 0 <= v < 2 ^ 32
       /\ v = int_from_bytes_little (firstn 4 (skipn i bs))
       /\ ((i + 4 <= List.length bs)%nat -> v = spec_le32 bs i)
       /\ ((i + 1 = List.length bs)%nat -> v = byte_at bs i)
       /\ ((List.length bs <= i)%nat -> v = 0))
  /\ (_data d = None -> _parse_int32 i d = (Raised TypeError, d)).
Proof.
  split.
  - intros bs H. exists (int_from_bytes_little (slice bs i (i + 4))).
    split; [unfold _parse_int32, bind, read; rewrite H; reflexivity|].
    split; [apply (from_bytes_slice_range bs i 4)|].
    split; [unfold slice; now replace (i + 4 - i)%nat with 4%nat by lia|].
    split; [apply from_bytes_le32|]. split.
    + intros Hlast. rewrite (slice_last_byte bs i 4) by lia.
      unfold byte_at. cbn [int_from_bytes_little]. lia.
    + intros Hpast. now rewrite slice_past_end.
  - intros H. unfold _parse_int32, bind, read. rewrite H. reflexivity.
Qed.

Lemma parse_int32_at_the_edges_witness :
  _parse_int32 253 (set_data (Some sample_frame) (__init__ sample_ble_device))
  = (Returned 0, set_data (Some sample_frame) (__init__ sample_ble_device))
  /\ _parse_int32 132 (__init__ sample_ble_device)
     = (Raised TypeError, __init__ sample_ble_device).
Proof.
  split.
  - destruct (proj1 (parse_int32_at_the_edges 253
                       (set_data (Some sample_frame) (__init__ sample_ble_device)))
                    sample_frame eq_refl)
      as [v [Hrun [_ [_ [_ [_ Hpast]]]]]].
    rewrite Hrun, Hpast; [reflexivity|].
    replace (List.length sample_frame) with 253%nat by reflexivity. lia.
  - apply (proj2 (parse_int32_at_the_edges 132 (__init__ sample_ble_device))). reflexivity.
Defined.

(** ** The serial number *)

Lemma string_of_list_byte_length (bs : list byte) :
  String.length (string_of_list_byte bs) = List.length bs.
Proof.
  unfold string_of_list_byte.
  induction bs as [|b bs IH]; cbn; [reflexivity | now rewrite IH].
Qed.

Lemma slice_full_length (data : list byte) (i j : nat) :
  (i <= j)%nat -> (j <= List.length data)%nat ->
  List.length (slice data i j) = (j - i)%nat.
Proof.
  intros Hij Hj. unfold slice. rewrite length_firstn, length_skipn. lia.
Qed.

(** X5: after a valid frame the [serial_no] accessor returns the sixteen
    characters of bytes 16..31, not the default and not the ten characters
    its docstring speaks of; before any frame it returns "Unknown". *)
Theorem serial_no_is_sixteen_characters
  (now : datetime) (data : list byte) (d : SolixBLEDevice) :
  List.length data = 253%nat -> has_marker data -> serial_is_ascii data = true ->
  serial_no (snd (_parse_telemetry now data d)) = string_of_list_byte (slice data 16 32)
  /\ String.length (serial_no (snd (_parse_telemetry now data d))) = 16%nat
  /\ (forall ble_device, serial_no (__init__ ble_device) = "Unknown"%string).
Proof.
  intros Hlen Hm Hs. rewrite parse_telemetry_frame by assumption. cbn [snd].
  assert (Hl : String.length (string_of_list_byte (slice data 16 32)) = 16%nat).
  { rewrite string_of_list_byte_length, slice_full_length; [reflexivity | lia |].
    rewrite Hlen. repeat constructor. }
  assert (Hserial : serial_no (frame_assignments now data d)
                    = string_of_list_byte (slice data 16 32)).
  { unfold serial_no.
    change (_serial_no (frame_assignments now data d))
      with (Some (string_of_list_byte (slice data 16 32))).
    destruct (string_of_list_byte (slice data 16 32)); [discriminate Hl | reflexivity]. }
  split; [exact Hserial|]. split; [now rewrite Hserial | intros; reflexivity].
Qed.

Lemma serial_no_is_sixteen_characters_witness :
  serial_no (snd (_parse_telemetry 1000 sample_frame (__init__ sample_ble_device)))
  = "AAAAAAAAAAAAAAAA"%string.
Proof.
  rewrite (proj1 (serial_no_is_sixteen_characters 1000 sample_frame
                    (__init__ sample_ble_device)
                    (proj1 sample_frame_valid)
                    (proj1 (proj2 sample_frame_valid))
                    (proj2 (proj2 sample_frame_valid)))).
  reflexivity.
Defined.

(** ** The registry *)

Lemma remove_first_spec (f : callback) (l : list callback) :
  match remove_first f l with
  | Some r => exists l1 l2, l = l1 ++ f :: l2 /\ ~ In f l1 /\ r = l1 ++ l2
  | None => ~ In f l
  end.
Proof.
  induction l as [|g l IH]; cbn [remove_first]; [intros []|].
  destruct (Nat.eqb_spec g f) as [-> | Hne].
  - exists [], l. repeat split. intros [].
  - destruct (remove_first f l) as [r|].
    + destruct IH as [l1 [l2 [Hl [Hnot Hr]]]].
      exists (g :: l1), l2. subst. repeat split.
      intros [H | H]; [contradiction | now apply Hnot].
    + intros [H | H]; [contradiction | now apply IH].
Qed.

Lemma remove_first_appended (f : callback) (l : list callback) :
  ~ In f l -> remove_first f (l ++ [f]) = Some l.
Proof.
  induction l as [|g l IH]; intros Hnot; cbn [remove_first app].
  - now rewrite Nat.eqb_refl.
  - destruct (Nat.eqb_spec g f) as [-> | Hne]; [exfalso; apply Hnot; now left|].
    rewrite IH; [reflexivity|]. intros H. apply Hnot. now right.
Qed.

(** X6: [remove_callback] takes out the first occurrence of the function
    and nothing else, keeping the order of the others; when the function
    is not registered it raises [ValueError] and the session is as it
    was. *)
Theorem remove_callback_first_occurrence
  {E : Type} (f : callback) (w : World E) :
  (In f (_state_changed_callbacks (self w)) ->
   exists l1 l2,
     _state_changed_callbacks (self w) = l1 ++ f :: l2
     /\ ~ In f l1
     /\ remove_callback f w
        = Some (Returned tt, with_self (set_state_changed_callbacks (l1 ++ l2) (self w)) w))
  /\ (~ In f (_state_changed_callbacks (self w)) ->
      remove_callback f w = Some (Raised ValueError, w)).
Proof.
  pose proof (remove_first_spec f (_state_changed_callbacks (self w))) as Hspec.
  unfold remove_callback, on_self.
  destruct (remove_first f (_state_changed_callbacks (self w))) as [r|].
  - destruct Hspec as [l1 [l2 [Hl [Hnot Hr]]]]. split.
    + intros _. exists l1, l2. subst r. repeat split; assumption.
    + intros Habsent. exfalso. apply Habsent. rewrite Hl. apply in_elt.
  - split; [intros Hin; contradiction|].
    intros _. destruct w; reflexivity.
Qed.

Lemma remove_callback_first_occurrence_witness :
  remove_callback 0%nat world_available
  = Some (Returned tt,
          with_self (set_state_changed_callbacks [1%nat] (self world_available))
                    world_available)
  /\ remove_callback 5%nat world_available = Some (Raised ValueError, world_available).
Proof.
  split.
  - destruct (proj1 (remove_callback_first_occurrence 0%nat world_available))
      as [l1 [l2 [Hl [Hnot Hrun]]]].
    + cbn. now left.
    + rewrite Hrun. cbn in Hl. destruct l1 as [|g l1].
      * cbn in Hl. inversion Hl; subst. reflexivity.
      * cbn in Hl. inversion Hl; subst. exfalso. apply Hnot. now left.
  - apply (proj2 (remove_callback_first_occurrence 5%nat world_available)).
    cbn. intros [H | [H | []]]; discriminate H.
Defined.

(** X7: registering a function that is not registered and removing it again
    leaves the session exactly as it was. *)
Theorem add_then_remove_callback_restores
  {E : Type} (f : callback) (w : World E) :
  ~ In f (_state_changed_callbacks (self w)) ->
  sbind (add_callback f) (fun _ => remove_callback f) w = Some (Returned tt, w).
Proof.
  intros Hnot. destruct w as [d x t]. cbn [self] in Hnot.
  unfold sbind, add_callback, remove_callback, on_self, with_self.
  cbn [self ext trace _state_changed_callbacks set_state_changed_callbacks].
  rewrite (remove_first_appended f _ Hnot).
  destruct d; reflexivity.
Qed.

Lemma add_then_remove_callback_restores_witness :
  sbind (add_callback 5%nat) (fun _ => remove_callback 5%nat) world_available
  = Some (Returned tt, world_available).
Proof.
  apply (add_then_remove_callback_restores 5%nat world_available).
  cbn. intros [H | [H | []]]; discriminate H.
Defined.

(** X8: [add_callback] never refuses and never deduplicates: the function
    goes to the end of the registry, so the next notification (observers
    that leave the registry alone, none raising) calls the functions
    registered before in their order and the new one last, once more if it
    was registered already. *)
Theorem add_callback_is_called_last
  {E : Type} (env : Collaborators E) (fuel : nat) (f : callback) (w : World E) :
  keeps_registry env ->
  (S (List.length (_state_changed_callbacks (self w))) < fuel)%nat ->
  exists r w',
    sbind (add_callback f) (fun _ => _run_state_changed_callbacks env fuel) w
    = Some (r, w')
    /\ (r = Returned tt ->
        trace w' = trace w ++ map Called (_state_changed_callbacks (self w) ++ [f])).
Proof.
  intros Hkeep Hfuel.
  destruct (iterate_callbacks_in_order env Hkeep fuel 0
              (with_self (set_state_changed_callbacks
                            (_state_changed_callbacks (self w) ++ [f]) (self w)) w))
    as [n [r [w' [Hrun [Htr Hres]]]]].
  { cbn [self with_self _state_changed_callbacks set_state_changed_callbacks].
    rewrite length_app. cbn [List.length]. lia. }
  exists r, w'. split; [exact Hrun|].
  intros Hr. cbn [self with_self trace skipn _state_changed_callbacks
                  set_state_changed_callbacks] in Htr, Hres.
  destruct Hres as [[_ Hn] | [e [g [s [Hraised _]]]]].
  - rewrite Htr, Hn, Nat.sub_0_r, firstn_all. reflexivity.
  - rewrite Hr in Hraised. discriminate Hraised.
Qed.

Lemma add_callback_is_called_last_witness :
  exists r w',
    sbind (add_callback 1%nat) (fun _ => _run_state_changed_callbacks env_quiet 5)
          world_available
    = Some (r, w')
    /\ (r = Returned tt ->
        trace w' = [Called 0%nat; Called 1%nat; Called 1%nat]).
Proof.
  apply (add_callback_is_called_last env_quiet 5 1%nat world_available).
  - exact env_quiet_keeps_registry.
  - cbn. lia.
Defined.

(** ** The notification handler *)

(** X9: a notification that is no telemetry frame (wrong size or wrong
    marker) changes nothing in the object, and the observers are notified
    all the same: the handler does what a bare notification of the
    observers does. *)
Theorem telemetry_update_notifies_on_foreign_payload
  {E : Type} (env : Collaborators E) (fuel : nat) (now : datetime)
  (data : list byte) (w : World E) :
  List.length data <> 253%nat \/ ~ has_marker data ->
  _telemetry_update env fuel now data w = _run_state_changed_callbacks env fuel w.
Proof.
  intros Hforeign.
  assert (Hrun : _parse_telemetry now data (self w) = (Returned tt, self w)).
  { destruct (Nat.eq_dec (List.length data) 253) as [Hlen | Hlen].
    - destruct Hforeign as [H | H]; [contradiction|].
      now apply parse_telemetry_wrong_marker.
    - now apply parse_telemetry_wrong_size. }
  unfold _telemetry_update, sbind, on_self. rewrite Hrun.
  destruct w; reflexivity.
Qed.

Lemma telemetry_update_notifies_on_foreign_payload_witness :
  _telemetry_update env_quiet 3 1000 short_payload world_available
  = Some (Returned tt,
          {| self := device_available; ext := tt;
             trace := [Called 0%nat; Called 1%nat] |}).
Proof.
  rewrite (telemetry_update_notifies_on_foreign_payload env_quiet 3 1000 short_payload
             world_available).
  - reflexivity.
  - left. cbn. intros H. discriminate H.
Defined.

(** X10: on a frame with a serial field that is not ASCII the handler lets
    the [UnicodeDecodeError] out and notifies no observer, although the
    stored payload and the timestamp are already the new ones. *)
Theorem telemetry_update_malformed_frame_skips_observers
  {E : Type} (env : Collaborators E) (fuel : nat) (now : datetime)
  (data : list byte) (w : World E) :
  List.length data = 253%nat -> has_marker data -> serial_is_ascii data = false ->
  _telemetry_update env fuel now data w
  = Some (Raised UnicodeDecodeError,
          with_self (set_last_data_timestamp (Some now) (set_data (Some data) (self w))) w).
Proof.
  intros Hlen Hm Hs. unfold _telemetry_update, sbind, on_self.
  rewrite parse_telemetry_bad_serial by assumption. reflexivity.
Qed.

Lemma telemetry_update_malformed_frame_skips_observers_witness :
  option_map (fun r => (fst r, trace (snd r)))
    (_telemetry_update env_quiet 3 1000 frame_bad_serial world_available)
  = Some (Raised UnicodeDecodeError, []).
Proof.
  rewrite (telemetry_update_malformed_frame_skips_observers env_quiet 3 1000
             frame_bad_serial world_available
             (proj1 frame_bad_serial_shape)
             (proj1 (proj2 frame_bad_serial_shape))
             (proj2 (proj2 frame_bad_serial_shape))).
  reflexivity.
Defined.

(** ** The disconnect handler *)

(** X11: a disconnect signal of the client the object holds always clears
    the telemetry flag and keeps the client, the registry and the attempt
    counter; it calls no observer.  When the disconnect was expected, or
    the counter has reached [RECONNECT_ATTEMPTS_MAX], nothing else
    happens; otherwise exactly one reconnect task is spawned and kept in
    [_reconnect_task]. *)
Theorem disconnect_signal_of_held_client
  {E : Type} (c : client) (w : World E) :
  _client (self w) = Some c ->
  exists w',
    _disconnect_callback c w = Some (Returned tt, w')
    /\ _supports_telemetry (self w') = false
    /\ _client (self w') = Some c
    /\ _state_changed_callbacks (self w') = _state_changed_callbacks (self w)
    /\ _connection_attempts (self w') = _connection_attempts (self w)
    /\ _expect_disconnect (self w') = _expect_disconnect (self w)
    /\ ext w' = ext w
    /\ (_expect_disconnect (self w) = true
        \/ RECONNECT_ATTEMPTS_MAX <= _connection_attempts (self w) ->
        trace w' = trace w /\ _reconnect_task (self w') = _reconnect_task (self w))
    /\ (_expect_disconnect (self w) = false ->
        _connection_attempts (self w) < RECONNECT_ATTEMPTS_MAX ->
        exists t,
          trace w' = trace w ++ [CreateTask t] /\ _reconnect_task (self w') = Some t).
Proof.
  intros Hheld. destruct w as [d x t]. cbn [self ext trace] in *.
  unfold _disconnect_callback, sbind, on_self, read, assign, observe, emit, sret, with_self.
  cbn [self ext trace]. rewrite Hheld, Nat.eqb_refl.
  cbn [negb self ext trace _expect_disconnect _connection_attempts set_supports_telemetry].
  destruct (_expect_disconnect d) eqn:Hexp.
  - eexists. split; [reflexivity|]. cbn [self ext trace]. repeat split; try assumption.
    intros H. discriminate H.
  - unfold RECONNECT_ATTEMPTS_MAX.
    cbn [Z.eqb orb self ext trace _connection_attempts set_supports_telemetry].
    destruct (Z.ltb_spec (_connection_attempts d) 5) as [Hlt | Hge].
    + eexists. split; [reflexivity|]. cbn [self ext trace]. repeat split; try assumption.
      * destruct H as [H | H]; [discriminate H | lia].
      * destruct H as [H | H]; [discriminate H | lia].
      * intros _ _. eexists. split; reflexivity.
    + eexists. split; [reflexivity|]. cbn [self ext trace]. repeat split; try assumption.
      intros _ H. lia.
Qed.

Lemma disconnect_signal_of_held_client_witness :
  exists w' t,
    _disconnect_callback 7%nat world_available = Some (Returned tt, w')
    /\ _supports_telemetry (self w') = false
    /\ trace w' = [CreateTask t].
Proof.
  destruct (disconnect_signal_of_held_client 7%nat world_available eq_refl)
    as [w' [Hrun [Hflag [_ [_ [_ [_ [_ [_ Hspawn]]]]]]]]].
  destruct (Hspawn eq_refl) as [t [Htrace _]]; [reflexivity|].
  exists w', t. split; [exact Hrun|]. split; [exact Hflag | exact Htrace].
Defined.

(** ** Connecting *)

Ltac split_on x :=
  lazymatch x with
  | negb ?y => split_on y
  | andb ?y _ => split_on y
  | context [match _ with _ => _ end] => fail
  | _ => destruct x eqn:?
  end.

Ltac split_match :=
  match goal with
  | |- context [match ?x with _ => _ end] => split_on x
  end.

(** X12: [connect] with [run_callbacks] unset needs no fuel and always has a
    result; a [BleakError] of the transport never leaves it; it calls no
    observer; and when it returns [True] the link is up, the telemetry flag
    is set, the disconnect is no longer expected and the attempt counter is
    back at zero. *)
Theorem connect_quietly
  {E : Type} (env : Collaborators E) (fuel : nat) (max_attempts : Z) (w : World E) :
  exists r w' evs,
    connect env fuel max_attempts false w = Some (r, w')
    /\ r <> Raised BleakError
    /\ trace w' = trace w ++ evs
    /\ (forall f, ~ In (Called f) evs)
    /\ (r = Returned true ->
        connected env w' = true
        /\ supports_telemetry (self w') = true
        /\ _expect_disconnect (self w') = false
        /\ _connection_attempts (self w') = 0).
Proof.
  destruct w as [d x t].
  unfold connect, _determine_services, _subscribe_to_services, try_except_BleakError.
  unfold sbind, observe, on_self, read, assign, emit, external, sret, sraise,
    available, connected, supports_telemetry, with_self.
  cbn [self ext trace fst snd].
  repeat (split_match; cbn [self ext trace fst snd negb andb _client _supports_telemetry
                            set_connection_attempts set_client set_supports_telemetry
                            set_expect_disconnect _expect_disconnect _connection_attempts]).
  all: eexists _, _, _; split; [reflexivity|]; split; [discriminate|].
  all: split;
    [cbn [trace]; rewrite <- ?app_assoc;
     first [reflexivity | symmetry; apply app_nil_r]|].
  all: split; [intros f Hin; cbn in Hin; intuition discriminate|].
  all: intros Hr; try discriminate Hr.
  all: cbn [self ext trace _client _supports_telemetry _expect_disconnect
            _connection_attempts set_connection_attempts set_expect_disconnect
            set_client set_supports_telemetry].
  all: repeat match goal with H : _ = _ |- _ => rewrite H end.
  all: repeat split; reflexivity.
Qed.


Lemma connect_quietly_witness :
  exists w',
    connect env_quiet 0 3 false world_fresh = Some (Returned true, w')
    /\ connected env_quiet w' = true
    /\ trace w' = [EstablishConnection 3; GetCharacteristic 1%nat; StartNotify 1%nat].
Proof.
  destruct (connect_quietly env_quiet 0 3 world_fresh)
    as [r [w' [evs [Hrun [_ [_ [_ Hup]]]]]]].
  assert (Hr : r = Returned true)
    by (vm_compute in Hrun; inversion Hrun; reflexivity).
  subst r. exists w'. split; [exact Hrun|]. split; [apply (Hup eq_refl)|].
  vm_compute in Hrun. inversion Hrun. reflexivity.
Defined.

(** X13: when the link is down and establishing it raises [BleakError],
    with the link still down afterwards, [connect] returns [False]
    whatever [run_callbacks] says: the error stays inside, no observer is
    called, nothing is probed, and the attempt counter was incremented
    before the attempt. *)
Theorem connect_link_failure_returns_false
  {E : Type} (env : Collaborators E) (fuel : nat) (max_attempts : Z)
  (run_callbacks : bool) (w : World E) (d' : SolixBLEDevice) (x' : E) :
  connected env w = false ->
  establish_connection env max_attempts
    (set_connection_attempts (_connection_attempts (self w) + 1) (self w), ext w)
  = (Raised BleakError, (d', x')) ->
  connected env
    {| self := d'; ext := x'; trace := trace w ++ [EstablishConnection max_attempts] |}
  = false ->
  connect env fuel max_attempts run_callbacks w
  = Some (Returned false,
          {| self := d'; ext := x';
             trace := trace w ++ [EstablishConnection max_attempts] |}).
Proof.
  intros Hdown Hfail Hstill. destruct w as [d x t]. cbn [self ext trace] in *.
  unfold connect, try_except_BleakError.
  unfold sbind, observe, on_self, read, assign, emit, external, sret, with_self.
  cbn [self ext trace]. rewrite Hdown.
  cbn [negb self ext trace]. rewrite Hfail.
  cbn [self ext trace]. rewrite Hstill. reflexivity.
Qed.

Lemma connect_link_failure_returns_false_witness :
  connect env_unreachable 0 3 true world_fresh
  = Some (Returned false,
          {| self := set_connection_attempts 1 (__init__ sample_ble_device);
             ext := tt;
             trace := [EstablishConnection 3] |}).
Proof.
  apply (connect_link_failure_returns_false env_unreachable 0 3 true world_fresh);
    reflexivity.
Defined.

(** X14: when the link is up but the device has no telemetry
    characteristic, [connect] returns [False] and leaves the link open: the
    client stays held, nothing is subscribed, no observer is called, and
    the expected-disconnect flag and the attempt counter are not reset. *)
Theorem connect_without_telemetry_returns_false
  {E : Type} (env : Collaborators E) (fuel : nat) (max_attempts : Z)
  (run_callbacks : bool) (w : World E) (c : client) :
  connected env w = true ->
  _supports_telemetry (self w) = false ->
  _client (self w) = Some c ->
  get_characteristic env c (ext w) = Returned false ->
  connect env fuel max_attempts run_callbacks w
  = Some (Returned false,
          {| self := set_supports_telemetry false (self w); ext := ext w;
             trace := trace w ++ [GetCharacteristic c] |}).
Proof.
  intros Hup Hflag Hheld Habsent. destruct w as [d x t]. cbn [self ext trace] in *.
  assert (Hlink : is_connected env c x = true)
    by (unfold connected in Hup; cbn [self ext] in Hup; now rewrite Hheld in Hup).
  unfold connect, _determine_services, _subscribe_to_services, try_except_BleakError.
  unfold sbind, observe, on_self, read, assign, emit, external, sret, sraise,
    available, connected, supports_telemetry, with_self.
  repeat progress
    (cbn [self ext trace fst snd negb andb _client _supports_telemetry
          set_supports_telemetry];
     rewrite ?Hheld, ?Hlink, ?Hflag, ?Habsent).
  reflexivity.
Qed.

Lemma connect_without_telemetry_returns_false_witness :
  connect env_no_telemetry 0 3 true world_linked
  = Some (Returned false,
          {| self := set_supports_telemetry false (self world_linked); ext := tt;
             trace := [GetCharacteristic 7%nat] |}).
Proof.
  apply (connect_without_telemetry_returns_false env_no_telemetry 0 3 true
           world_linked 7%nat); reflexivity.
Defined.

(** X15: when the subscription raises [BleakError] (the transport leaving
    the object alone), [connect] returns [False] with the telemetry flag
    already set: the session reports itself available although nothing is
    subscribed, and the next [connect] takes the short way and returns
    [True] without subscribing. *)
Theorem connect_subscription_failure_leaves_flag
  {E : Type} (env : Collaborators E) (fuel : nat) (max_attempts : Z)
  (run_callbacks : bool) (w : World E) (c : client) :
  connected env w = true ->
  _supports_telemetry (self w) = false ->
  _client (self w) = Some c ->
  get_characteristic env c (ext w) = Returned true ->
  start_notify env c (set_supports_telemetry true (self w), ext w)
  = (Raised BleakError, (set_supports_telemetry true (self w), ext w)) ->
  exists w',
    connect env fuel max_attempts run_callbacks w = Some (Returned false, w')
    /\ trace w' = trace w ++ [GetCharacteristic c; StartNotify c]
    /\ available env w' = true
    /\ exists w'',
        connect env fuel max_attempts false w' = Some (Returned true, w'')
        /\ trace w'' = trace w'.
Proof.
  intros Hup Hflag Hheld Hpresent Hfail. destruct w as [d x t].
  cbn [self ext trace] in *.
  assert (Hlink : is_connected env c x = true)
    by (unfold connected in Hup; cbn [self ext] in Hup; now rewrite Hheld in Hup).
  exists {| self := set_supports_telemetry true d; ext := x;
            trace := (t ++ [GetCharacteristic c]) ++ [StartNotify c] |}.
  assert (Havail : available env
            {| self := set_supports_telemetry true d; ext := x;
               trace := (t ++ [GetCharacteristic c]) ++ [StartNotify c] |} = true).
  { unfold available, connected, supports_telemetry.
    cbn [self ext _client _supports_telemetry set_supports_telemetry].
    now rewrite Hheld, Hlink. }
  split; [|split; [|split]].
  - unfold connect, _determine_services, _subscribe_to_services, try_except_BleakError.
    unfold sbind, observe, on_self, read, assign, emit, external, sret, sraise,
      available, connected, supports_telemetry, with_self.
    repeat progress
      (cbn [self ext trace fst snd negb andb _client _supports_telemetry
            set_supports_telemetry];
       rewrite ?Hheld, ?Hlink, ?Hflag, ?Hpresent, ?Hfail).
    reflexivity.
  - cbn [trace]. now rewrite <- app_assoc.
  - exact Havail.
  - eexists. split.
    + rewrite connect_available_unfold.
      * reflexivity.
      * unfold available in Havail. now apply andb_prop in Havail.
      * unfold available in Havail. now apply andb_prop in Havail.
    + reflexivity.
Qed.

Lemma connect_subscription_failure_leaves_flag_witness :
  exists w',
    connect env_subscription_fails 0 3 true world_linked = Some (Returned false, w')
    /\ available env_subscription_fails w' = true.
Proof.
  destruct (connect_subscription_failure_leaves_flag env_subscription_fails 0 3 true
              world_linked 7%nat eq_refl eq_refl eq_refl eq_refl eq_refl)
    as [w' [Hrun [_ [Havail _]]]].
  exists w'. split; assumption.
Defined.

(** ** Discovery *)

Lemma existsb_nat_eqb (d : nat) (l : list nat) : existsb (Nat.eqb d) l = true <-> In d l.
Proof.
  rewrite existsb_exists. split.
  - intros [y [Hin Heq]]. apply Nat.eqb_eq in Heq. now subst.
  - intros Hin. exists d. split; [exact Hin | apply Nat.eqb_refl].
Qed.

Lemma existsb_string_eqb (u : string) (l : list string) :
  existsb (String.eqb u) l = true <-> In u l.
Proof.
  rewrite existsb_exists. split.
  - intros [y [Hin Heq]]. apply String.eqb_eq in Heq. now subst.
  - intros Hin. exists u. split; [exact Hin | apply String.eqb_refl].
Qed.

Lemma detection_callback_spec device adv devices :
  NoDup devices ->
  NoDup (detection_callback device adv devices)
  /\ (forall d, In d (detection_callback device adv devices) <->
                In d devices \/ (d = device /\ In UUID_IDENTIFIER (service_uuids adv))).
Proof.
  intros Hnd. unfold detection_callback.
  destruct (existsb (String.eqb UUID_IDENTIFIER) (service_uuids adv)) eqn:Hid.
  - apply existsb_string_eqb in Hid.
    destruct (existsb (Nat.eqb device) devices) eqn:Hin; cbn [negb andb].
    + apply existsb_nat_eqb in Hin. split; [exact Hnd|].
      intros d. split; [now left|]. intros [H | [-> _]]; assumption.
    + assert (Hnot : ~ In device devices).
      { intros H. apply existsb_nat_eqb in H. congruence. }
      split.
      * apply NoDup_app; [exact Hnd | repeat constructor; intros [] |].
        intros a Ha [<- | []]. contradiction.
      * intros d. rewrite in_app_iff. cbn [In]. split.
        -- intros [H | [<- | []]]; [now left | right; now split].
        -- intros [H | [-> _]]; [now left | right; now left].
  - cbn [andb]. split; [exact Hnd|].
    intros d. split; [now left|]. intros [H | [_ H]]; [exact H|].
    apply existsb_string_eqb in H. congruence.
Qed.

Lemma discover_from_spec detections :
  forall devices,
    NoDup devices ->
    NoDup (fold_left (fun devices p => detection_callback (fst p) (snd p) devices)
                     detections devices)
    /\ (forall d,
           In d (fold_left (fun devices p => detection_callback (fst p) (snd p) devices)
                           detections devices)
           <-> In d devices
               \/ exists adv, In (d, adv) detections
                              /\ In UUID_IDENTIFIER (service_uuids adv)).
Proof.
  induction detections as [|[device adv] detections IH]; intros devices Hnd.
  - cbn [fold_left]. split; [exact Hnd|].
    intros d. split; [now left|]. intros [H | [adv [[] _]]]. exact H.
  - cbn [fold_left fst snd].
    destruct (detection_callback_spec device adv devices Hnd) as [Hnd' Hin'].
    destruct (IH _ Hnd') as [Hres Hin]. split; [exact Hres|].
    intros d. rewrite Hin, Hin'. split.
    + intros [[H | [-> Hid]] | [a [Ha Hid]]].
      * now left.
      * right. exists adv. split; [now left | exact Hid].
      * right. exists a. split; [now right | exact Hid].
    + intros [H | [a [[Heq | Ha] Hid]]].
      * left. now left.
      * inversion Heq; subst. left. right. now split.
      * right. exists a. now split.
Qed.

(** X16: [discover_devices] returns each device at most once, and it returns
    exactly the devices that were reported at least once with the Solix
    identifier among their service UUIDs; with nothing reported it returns
    the empty list. *)
Theorem discover_devices_finds_each_solix_once
  (detections : list (scanned_device * AdvertisementData)) :
  NoDup (discover_devices detections)
  /\ (forall d,
         In d (discover_devices detections)
         <-> exists adv, In (d, adv) detections
                         /\ In UUID_IDENTIFIER (service_uuids adv))
  /\ discover_devices [] = [].
Proof.
  destruct (discover_from_spec detections [] (NoDup_nil _)) as [Hnd Hin].
  split; [exact Hnd|]. split; [|reflexivity].
  intros d. unfold discover_devices. rewrite Hin. split.
  - intros [[] | H]. exact H.
  - intros H. now right.
Qed.

(** ** The status enumerations *)

(** X17: [__repr__] renders every member of [PortStatus] as the class
    name with that member's own name in brackets (the default branch of its
    [match] is reached by [UNKNOWN] alone), and over the members, which are
    all there are, the values are pairwise different and so are the
    renderings. *)
Theorem port_status_repr_names_each_member :
  (forall s,
      PortStatus.__repr__ s = ("PortStatus(" ++ PortStatus.name s ++ ")")%string)
  /\ (forall s, In s PortStatus.members)
  /\ NoDup (map PortStatus.value PortStatus.members)
  /\ NoDup (map PortStatus.__repr__ PortStatus.members)
  /\ map PortStatus.value PortStatus.members = [-1; 0; 1; 2].
Proof.
  split; [intros []; reflexivity|].
  split; [intros []; cbn; tauto|].
  split; [|split; [|reflexivity]].
  - cbn. repeat constructor; cbn; intuition discriminate.
  - cbn. repeat constructor; cbn; intuition discriminate.
Qed.

(** X18: [__repr__] renders every member of [LightStatus] as the class
    name with that member's own name in brackets (the default branch of its
    [match] is reached by [UNKNOWN] alone), and over the members, which are
    all there are, the values are pairwise different and so are the
    renderings. *)
Theorem light_status_repr_names_each_member :
  (forall s,
      LightStatus.__repr__ s = ("LightStatus(" ++ LightStatus.name s ++ ")")%string)
  /\ (forall s, In s LightStatus.members)
  /\ NoDup (map LightStatus.value LightStatus.members)
  /\ NoDup (map LightStatus.__repr__ LightStatus.members)
  /\ map LightStatus.value LightStatus.members = [-1; 0; 1; 2; 3].
Proof.
  split; [intros []; reflexivity|].
  split; [intros []; cbn; tauto|].
  split; [|split; [|reflexivity]].
  - cbn. repeat constructor; cbn; intuition discriminate.
  - cbn. repeat constructor; cbn; intuition discriminate.
Qed.

(** ** The monitor *)

Section MonitorFacts.

Variable strftime : datetime -> string.

Lemma update_silent (device : SolixBLEDevice) (m : monitor) :
  last_update device = None \/ last_update device = seen m ->
  update strftime (device, m) = (Returned tt, (device, m)).
Proof.
  unfold update. cbn [fst snd]. intros [H | H].
  - now rewrite H.
  - destruct (last_update device) as [ts|]; [|reflexivity].
    rewrite <- H. now rewrite Z.eqb_refl.
Qed.

Lemma update_prints (device : SolixBLEDevice) (m : monitor) (ts : datetime) :
  last_update device = Some ts -> seen m <> Some ts ->
  exists frame,
    update strftime (device, m)
    = (Returned tt, (device, {| seen := Some ts; printed := printed m ++ [frame] |}))
    /\ df_time frame = strftime ts
    /\ df_serial_no frame = serial_no device
    /\ df_solar_power_in frame = power_solar_in device
    /\ df_ac_power_out frame = power_ac_out device
    /\ df_battery_power frame = power_battery device
    /\ df_battery_percent frame = charge_percentage_battery device.
Proof.
  intros Hts Hnew. unfold update. cbn [fst snd]. rewrite Hts.
  assert (Hsame : match seen m with Some last => ts =? last | None => false end = false).
  { destruct (seen m) as [last|]; [|reflexivity].
    destruct (Z.eqb_spec ts last) as [-> | _]; [now contradiction Hnew | reflexivity]. }
  rewrite Hsame. eexists. split; [reflexivity|]. repeat split.
Qed.

End MonitorFacts.

(** X19: the monitor's callback never raises and never changes the device;
    it prints at most one line, and only when the device carries a
    timestamp it has not printed yet; called again at once it prints
    nothing. *)
Theorem monitor_update_prints_once
  (strftime : datetime -> string) (device : SolixBLEDevice) (m : monitor) :
  exists m',
    update strftime (device, m) = (Returned tt, (device, m'))
    /\ (printed m' = printed m
        \/ exists frame, printed m' = printed m ++ [frame]
                         /\ last_update device <> None
                         /\ last_update device <> seen m)
    /\ update strftime (device, m') = (Returned tt, (device, m')).
Proof.
  destruct (last_update device) as [ts|] eqn:Hts.
  - destruct (seen m) as [last|] eqn:Hseen.
    + destruct (Z.eq_dec ts last) as [-> | Hne].
      * exists m. rewrite update_silent by (right; congruence).
        split; [reflexivity|]. split; [now left | reflexivity].
      * destruct (update_prints strftime device m ts Hts) as [frame [Hrun _]];
          [congruence|].
        eexists. split; [exact Hrun|]. split.
        -- right. exists frame. split; [reflexivity|]. split; congruence.
        -- apply update_silent. right. cbn [seen]. exact Hts.
    + destruct (update_prints strftime device m ts Hts) as [frame [Hrun _]];
        [congruence|].
      eexists. split; [exact Hrun|]. split.
      * right. exists frame. split; [reflexivity|]. split; congruence.
      * apply update_silent. right. cbn [seen]. exact Hts.
  - exists m. rewrite update_silent by (now left).
    split; [reflexivity|]. split; [now left | reflexivity].
Qed.

(** X20: with the monitor's callback as the one registered observer, a
    valid frame whose time of arrival was not printed yet makes the
    notification handler print exactly one line, carrying that time and the
    values decoded from this frame; a notification that is no telemetry
    frame, coming next, prints nothing. *)
Theorem monitor_prints_each_frame_once
  (strftime : datetime -> string) (transport : Collaborators monitor)
  (fuel : nat) (now now' : datetime) (data other : list byte)
  (f : callback) (w : World monitor) :
  _state_changed_callbacks (self w) = [f] ->
  (2 <= fuel)%nat ->
  List.length data = 253%nat -> has_marker data -> serial_is_ascii data = true ->
  seen (ext w) <> Some now ->
  List.length other <> 253%nat \/ ~ has_marker other ->
  exists w' frame,
    _telemetry_update (monitor_env strftime transport) fuel now data w
    = Some (Returned tt, w')
    /\ printed (ext w') = printed (ext w) ++ [frame]
    /\ df_time frame = strftime now
    /\ df_solar_power_in frame = PyFloat (truediv (spec_le16 data 77) 10)
    /\ df_ac_power_out frame = PyFloat (truediv (spec_le16 data 84) 10)
    /\ df_battery_percent frame = PyInt (byte_at data 35)
    /\ trace w' = trace w ++ [Called f]
    /\ exists w'',
        _telemetry_update (monitor_env strftime transport) fuel now' other w'
        = Some (Returned tt, w'')
        /\ printed (ext w'') = printed (ext w').
Proof.
  intros Hreg Hfuel Hlen Hm Hs Hnew Hforeign.
  destruct fuel as [|[|fuel]]; try lia.
  destruct w as [d m t]. cbn [self ext trace] in *.
  assert (Hother : _parse_telemetry now' other (frame_assignments now data d)
                   = (Returned tt, frame_assignments now data d)).
  { destruct (Nat.eq_dec (List.length other) 253) as [Hl | Hl].
    - destruct Hforeign as [H | H]; [contradiction|].
      now apply parse_telemetry_wrong_marker.
    - now apply parse_telemetry_wrong_size. }
  assert (Hcb : _state_changed_callbacks (frame_assignments now data d) = [f])
    by exact Hreg.
  assert (Hts : last_update (frame_assignments now data d) = Some now) by reflexivity.
  assert (Hsolar : power_solar_in (frame_assignments now data d)
                   = PyFloat (truediv (spec_le16 data 77) 10)) by reflexivity.
  assert (Hac : power_ac_out (frame_assignments now data d)
                = PyFloat (truediv (spec_le16 data 84) 10)) by reflexivity.
  assert (Hpct : charge_percentage_battery (frame_assignments now data d)
                 = PyInt (byte_at data 35)) by reflexivity.
  pose proof (parse_telemetry_frame now data d Hlen Hm Hs) as Hrun.
  revert Hother Hcb Hts Hsolar Hac Hpct Hrun.
  generalize (frame_assignments now data d). intros d1 Hother Hcb Hts Hsolar Hac Hpct Hrun.
  destruct (update_prints strftime d1 m now Hts Hnew)
    as [frame [Hup [Htime [_ [Hfs [Hfa [_ Hfp]]]]]]].
  exists {| self := d1; ext := {| seen := Some now; printed := printed m ++ [frame] |};
            trace := t ++ [Called f] |}, frame.
  split.
  { unfold _telemetry_update, sbind, on_self. cbn [self]. rewrite Hrun.
    unfold _run_state_changed_callbacks, with_self. cbn [self ext trace].
    rewrite (iterate_callbacks_step _ _ _ _ f) by (cbn [self]; now rewrite Hcb).
    cbn [call monitor_env self ext trace]. rewrite Hup.
    apply iterate_callbacks_done. cbn [self]. now rewrite Hcb. }
  split; [reflexivity|]. split; [exact Htime|].
  split; [now rewrite Hfs|]. split; [now rewrite Hfa|]. split; [now rewrite Hfp|].
  split; [reflexivity|].
  exists {| self := d1; ext := {| seen := Some now; printed := printed m ++ [frame] |};
            trace := (t ++ [Called f]) ++ [Called f] |}.
  split; [|reflexivity].
  unfold _telemetry_update, sbind, on_self. cbn [self]. rewrite Hother.
  unfold _run_state_changed_callbacks, with_self. cbn [self ext trace].
  rewrite (iterate_callbacks_step _ _ _ _ f) by (cbn [self]; now rewrite Hcb).
  cbn [call monitor_env self ext trace].
  rewrite update_silent by (right; cbn [seen]; exact Hts).
  apply iterate_callbacks_done. cbn [self]. now rewrite Hcb.
Qed.

Lemma monitor_prints_each_frame_once_witness :
  exists w' frame,
    _telemetry_update (monitor_env strftime_seconds transport_quiet) 2 1000 sample_frame
      world_monitor
    = Some (Returned tt, w')
    /\ printed (ext w') = [frame]
    /\ df_time frame = "2026-01-01T00:16:40"%string
    /\ df_solar_power_in frame = PyFloat 10.
Proof.
  destruct (monitor_prints_each_frame_once strftime_seconds transport_quiet 2 1000 2000
              sample_frame short_payload 0%nat world_monitor)
    as [w' [frame [Hrun [Hprinted [Htime [Hsolar _]]]]]].
  - reflexivity.
  - lia.
  - exact (proj1 sample_frame_valid).
  - exact (proj1 (proj2 sample_frame_valid)).
  - exact (proj2 (proj2 sample_frame_valid)).
  - cbn. discriminate.
  - left. cbn. intros H. discriminate H.
  - exists w', frame. split; [exact Hrun|]. split; [exact Hprinted|].
    split; [exact Htime|]. rewrite Hsolar. reflexivity.
Defined.



(** X22: after [disconnect] the telemetry flag is still set, so a [connect]
    that gets a new link (the transport handing out client [c] and leaving
    the object alone) returns [True] having made one transport call, the
    link establishment: nothing is probed and nothing is subscribed. *)
Theorem connect_after_disconnect_skips_subscription
  {E : Type} (env : Collaborators E) (fuel : nat) (max_attempts : Z)
  (c : client) (w : World E) :
  _supports_telemetry (self w) = true ->
  (forall s, establish_connection env max_attempts s = (Returned c, s)) ->
  (forall x, is_connected env c x = true) ->
  exists w',
    sbind disconnect (fun _ => connect env fuel max_attempts false) w
    = Some (Returned true, w')
    /\ trace w' = trace w
                  ++ match _client (self w) with
                     | Some old => [ClientDisconnect old]
                     | None => []
                     end
                  ++ [EstablishConnection max_attempts]
    /\ _client (self w') = Some c
    /\ available env w' = true.
Proof.
  intros Hflag Hlink Hup. destruct w as [d x t]. cbn [self ext trace] in *.
  unfold sbind at 1.
  unfold disconnect, sbind, on_self, assign, read, emit, sret, with_self.
  cbn [self ext trace _client set_expect_disconnect].
  destruct (_client d) as [old|] eqn:Hold.
  - unfold connect, try_except_BleakError.
    unfold sbind, observe, on_self, read, assign, emit, external, sret,
      available, connected, supports_telemetry, with_self.
    repeat progress
      (cbn [self ext trace fst snd negb andb _client _supports_telemetry
            set_client set_expect_disconnect set_connection_attempts
            _connection_attempts];
       rewrite ?Hlink, ?Hup, ?Hflag).
    eexists. split; [reflexivity|]. cbn [self ext trace]. split.
    + now rewrite <- app_assoc.
    + split; [reflexivity|].
      cbn [_client _supports_telemetry set_client set_expect_disconnect
           set_connection_attempts].
      now rewrite Hup, Hflag.
  - unfold connect, try_except_BleakError.
    unfold sbind, observe, on_self, read, assign, emit, external, sret,
      available, connected, supports_telemetry, with_self.
    repeat progress
      (cbn [self ext trace fst snd negb andb _client _supports_telemetry
            set_client set_expect_disconnect set_connection_attempts
            _connection_attempts];
       rewrite ?Hold, ?Hlink, ?Hup, ?Hflag).
    eexists. split; [reflexivity|]. cbn [self ext trace]. split; [reflexivity|].
    split; [reflexivity|].
    cbn [_client _supports_telemetry set_client set_expect_disconnect
         set_connection_attempts].
    now rewrite Hup, Hflag.
Qed.

Lemma connect_after_disconnect_skips_subscription_witness :
  exists w',
    sbind disconnect (fun _ => connect env_quiet 0 3 false) world_available
    = Some (Returned true, w')
    /\ trace w' = [ClientDisconnect 7%nat; EstablishConnection 3].
Proof.
  destruct (connect_after_disconnect_skips_subscription env_quiet 0 3 1%nat
              world_available)
    as [w' [Hrun [Htrace _]]].
  - reflexivity.
  - intros s. reflexivity.
  - intros x. reflexivity.
  - exists w'. split; [exact Hrun | exact Htrace].
Defined.

